(** * ZenML pipeline CLI and scheduled-run example: a shallow embedding

    Sources embedded here:
    - [src/zenml/cli/pipeline.py]: [_get_module_attribute], [run_pipeline],
      [list_pipelines], [list_runs];
    - [examples/kubeflow_pipelines_orchestration/run_schedule.py]: the
      [__main__] block.

    Both files are glue around collaborators that live elsewhere (the user
    module, the pipeline and step classes, the repository and its metadata
    store, the console helpers).  The collaborators are an interface
    ([Collaborators]) over an abstract world state; every call to one of
    them is recorded, with its outcome, in a trace.  Python exceptions are
    the [Raise] outcome of a [result]. *)

From Stdlib Require Import ZArith String List Lia.
From stdpp Require Import base option list strings gmap pretty.

Set Warnings "-register-all".

Open Scope Z_scope.
Open Scope string_scope.
Open Scope list_scope.

(** ** Values read from the YAML configuration *)

(** What [yaml_utils.read_yaml] can hand back.  Mappings keep their
    insertion order, as Python dicts do; their keys are the strings the
    commands look entries up by.  Other scalars (floats, timestamps) take
    the same branches as [YInt] everywhere below. *)
Inductive yaml : Type :=
| YNone
| YBool (b : bool)
| YInt (z : Z)
| YStr (s : string)
| YList (l : list yaml)
| YDict (d : list (string * yaml)).

(** Python truth value, as tested by [if materializers_config:]. *)
Definition truthy (v : yaml) : bool :=
  match v with
  | YNone => false
  | YBool b => b
  | YInt z => negb (Z.eqb z 0)
  | YStr s => negb (String.eqb s "")
  | YList l => negb (Nat.eqb (length l) 0)
  | YDict d => negb (Nat.eqb (length d) 0)
  end.

(** [type(v).__name__] *)
Definition type_name (v : yaml) : string :=
  match v with
  | YNone => "NoneType"
  | YBool _ => "bool"
  | YInt _ => "int"
  | YStr _ => "str"
  | YList _ => "list"
  | YDict _ => "dict"
  end.

(** ** Exceptions and outcomes *)

Inductive exn : Type :=
| PipelineConfigurationError (msg : string)
| AttributeError (msg : string)
| KeyError (key : string)
| TypeError (msg : string)
| AssertionError (msg : string)
| OtherError (cls msg : string).

Inductive result (A : Type) : Type :=
| Ok (a : A)
| Raise (e : exn).
Arguments Ok {A} a.
Arguments Raise {A} e.

(** ** Python dicts as ordered association lists *)

Section Dict.
Context {V : Type}.

Fixpoint dict_get (d : list (string * V)) (k : string) : option V :=
  match d with
  | [] => None
  | (k', v) :: d' => if String.eqb k' k then Some v else dict_get d' k
  end.

(** [d[k] = v]: replaces the value of an existing key in place, appends a
    new key at the end. *)
Fixpoint dict_set (d : list (string * V)) (k : string) (v : V)
  : list (string * V) :=
  match d with
  | [] => [(k, v)]
  | (k', v') :: d' =>
      if String.eqb k' k then (k', v) :: d' else (k', v') :: dict_set d' k v
  end.
End Dict.

(** [config[key]] *)
Definition getitem (config : yaml) (key : string) : result yaml :=
  match config with
  | YDict d =>
      match dict_get d key with
      | Some v => Ok v
      | None => Raise (KeyError key)
      end
  | YStr _ => Raise (TypeError "string indices must be integers")
  | YList _ => Raise (TypeError "list indices must be integers or slices, not str")
  | _ => Raise (TypeError ("'" +:+ type_name config +:+ "' object is not subscriptable"))
  end.

(** [config.items()] *)
Definition items (config : yaml) : result (list (string * yaml)) :=
  match config with
  | YDict d => Ok d
  | _ => Raise (AttributeError ("'" +:+ type_name config +:+ "' object has no attribute 'items'"))
  end.

(** [config.get(key, None)] *)
Definition get_or_none (config : yaml) (key : string) : result yaml :=
  match config with
  | YDict d => Ok (default YNone (dict_get d key))
  | _ => Raise (AttributeError ("'" +:+ type_name config +:+ "' object has no attribute 'get'"))
  end.

(** Modelled from the spec: the key constants of [zenml.config.config_keys]
    (not among the sources); the configuration entries are the pipeline's
    'name' and 'steps' and a step's 'source' and 'materializers'. *)
Module PipelineConfigurationKeys.
Definition NAME : string := "name".
Definition STEPS : string := "steps".
End PipelineConfigurationKeys.

Module StepConfigurationKeys.
Definition SOURCE_ : string := "source".
Definition MATERIALIZERS_ : string := "materializers".
End StepConfigurationKeys.

(** ** Objects of the collaborators *)

(** A [Schedule(start_time, end_time, interval_second)]; times are
    microseconds on the clock's time line. *)
Record Schedule : Type := {
  start_time : Z;
  end_time : Z;
  interval_second : Z
}.

(** [timedelta(minutes=n)] in microseconds. *)
Definition timedelta_minutes (n : Z) : Z := n * 60 * 1000000.

(** A pipeline view as returned by the repository: the two attributes the
    CLI reads. *)
Record PipelineView : Type := {
  _id : Z;
  _name : string
}.

(** A row of a printed table: column title to cell text. *)
Definition row : Type := list (string * string).

Section Objects.
(** [Obj]: the Python objects that are opaque to the CLI (classes, step
    and pipeline instances, materializers). *)
Context {Obj : Type}.

(** An imported module: its [__name__], its [__file__] when it has one
    (a built-in module such as [sys] has none; the value is a path, or
    None for a namespace package) and the attributes a configuration can
    name. *)
Record Module : Type := {
  __name__ : string;
  __file__ : option yaml;
  attrs : gmap string Obj
}.

(** The argument of [with_return_materializers]: one materializer, or a
    dict from output names to materializers. *)
Inductive materializers : Type :=
| MSingle (m : Obj)
| MDict (d : list (string * Obj)).

(** Calls to collaborators, one constructor per call site kind. *)
Inductive call : Type :=
| ImportPythonFile (python_file : string)
| ReadYaml (config_path : string)
| PipelineKeyCheck (config : yaml)
| StepKeyCheck (step_config : yaml)
| StepClass (step_class : Obj)
| WithReturnMaterializers (step_instance : Obj) (m : materializers)
| PipelineClass (pipeline_class : Obj) (steps : list (string * Obj))
| WithConfig (pipeline_instance : Obj) (config_path : string)
             (overwrite_step_parameters : bool)
| LoggerDebug (fmt : string) (arg : yaml)
| Run (pipeline_instance : Obj) (schedule : option Schedule)
| DatetimeNow
| CliPrintActiveProfile
| NewRepository
| GetProject (project : string)
| GetPipelines (stack_name project : option string)
| GetPipeline (pipeline : string) (stack_name : option string)
| GetRunNames (p : PipelineView)
| CliPrintTable (table : list row)
| CliDeclare (text : string)
| CliError (text : string).

(** What a call gave back. *)
Inductive value : Type :=
| VNone
| VObj (o : Obj)
| VModule (m : Module)
| VYaml (y : yaml)
| VTime (t : Z)
| VViews (ps : list PipelineView)
| VView (p : option PipelineView)
| VNames (ns : list string).

Inductive outcome : Type :=
| Returned (v : value)
| Raised (e : exn).

Record event : Type := Ev { ev_call : call; ev_outcome : outcome }.

Definition outcome_of {A} (inj : A -> value) (r : result A) : outcome :=
  match r with
  | Ok a => Returned (inj a)
  | Raise e => Raised e
  end.
End Objects.
Arguments Module : clear implicits.
Arguments materializers : clear implicits.
Arguments call : clear implicits.
Arguments value : clear implicits.
Arguments outcome : clear implicits.
Arguments event : clear implicits.

(** ** The collaborators

    Everything the two source files call but do not define, over a world
    state [W] (file system, user code, repository and metadata store).
    Each may change the world and may raise. *)
Class Collaborators (W Obj : Type) : Type := {
  (** [str(v)] of a configuration value, in the error message *)
  py_str : yaml -> string;
  (** [source_utils.import_python_file] *)
  import_python_file : string -> W -> result (Module Obj) * W;
  (** [yaml_utils.read_yaml] *)
  read_yaml : string -> W -> result yaml * W;
  (** [PipelineConfigurationKeys.key_check], [StepConfigurationKeys.key_check] *)
  pipeline_key_check : yaml -> W -> result unit * W;
  step_key_check : yaml -> W -> result unit * W;
  (** calling a class of the user module with keyword arguments *)
  py_call : Obj -> list (string * Obj) -> W -> result Obj * W;
  with_return_materializers : Obj -> materializers Obj -> W -> result Obj * W;
  with_config : Obj -> string -> bool -> W -> result Obj * W;
  run : Obj -> option Schedule -> W -> result unit * W;
  logger_debug : string -> yaml -> W -> result unit * W;
  datetime_now : W -> result Z * W;
  (** [cli_utils] *)
  print_active_profile : W -> result unit * W;
  print_table : list row -> W -> result unit * W;
  declare : string -> W -> result unit * W;
  error : string -> W -> result unit * W;
  (** [Repository()], [repo.zen_store.get_project], [repo.get_pipelines],
      [repo.get_pipeline], [PipelineView.get_run_names] *)
  new_repository : W -> result unit * W;
  get_project : string -> W -> result unit * W;
  get_pipelines : option string -> option string -> W -> result (list PipelineView) * W;
  get_pipeline : string -> option string -> W -> result (option PipelineView) * W;
  get_run_names : PipelineView -> W -> result (list string) * W
}.

(** ** The monad: world state, trace of calls, exceptions *)

Section Monad.
Context {W Obj : Type}.

Record state : Type := State {
  world : W;
  trace : list (event Obj)
}.

Definition M (A : Type) : Type := state -> result A * state.

Definition ret {A} (a : A) : M A := fun s => (Ok a, s).

Definition raise {A} (e : exn) : M A := fun s => (Raise e, s).

Definition bind {A B} (c : M A) (k : A -> M B) : M B :=
  fun s =>
    match c s with
    | (Ok a, s') => k a s'
    | (Raise e, s') => (Raise e, s')
    end.

(** A pure computation that may raise. *)
Definition lift {A} (r : result A) : M A := fun s => (r, s).

(** A call to a collaborator: run it on the world and record the call
    with its outcome at the end of the trace. *)
Definition extern {A} (c : call Obj) (inj : A -> value Obj)
           (f : W -> result A * W) : M A :=
  fun s =>
    let (r, w') := f (world s) in
    (r, {| world := w'; trace := trace s ++ [Ev c (outcome_of inj r)] |}).

(** [try: c except KeyError: h] *)
Definition try_except_KeyError {A} (c : M A) (h : M A) : M A :=
  fun s =>
    match c s with
    | (Raise (KeyError _), s') => h s'
    | other => other
    end.
End Monad.
Arguments state : clear implicits.
Arguments M : clear implicits.

Notation "x <- c ;; k" := (bind c (fun x => k))
  (at level 100, c at next level, right associativity, only parsing).
Notation "c ;;; k" := (bind c (fun _ => k))
  (at level 100, right associativity, only parsing).

(** ** [src/zenml/cli/pipeline.py] *)

Section CLI.
Context {W Obj : Type} {C : Collaborators W Obj}.

Local Abbreviation M := (M W Obj).
Local Abbreviation Module := (Module Obj).

Definition unit_value : unit -> value Obj := fun _ => VNone.

(** A value inside an f-string: a [str] as it is, anything else through
    [str()]. *)
Definition fstr (v : yaml) : string :=
  match v with
  | YStr s => s
  | _ => py_str v
  end.

(** Python's builtin [getattr(module, attribute_name)]. *)
Definition getattr (module : Module) (attribute_name : yaml) : result Obj :=
  match attribute_name with
  | YStr name =>
      match attrs module !! name with
      | Some v => Ok v
      | None =>
          Raise (AttributeError ("module '" +:+ __name__ module
                                 +:+ "' has no attribute '" +:+ name +:+ "'"))
      end
  | _ => Raise (TypeError "getattr(): attribute name must be string")
  end.

Definition _get_module_attribute (module : Module) (attribute_name : yaml)
  : result Obj :=
  match getattr module attribute_name with
  | Raise (AttributeError _) =>
      (* the message is built before the raise, and it reads
         [module.__file__] *)
      match __file__ module with
      | Some file =>
          Raise (PipelineConfigurationError
                   ("Unable to load '" +:+ fstr attribute_name +:+ "' from"
                    +:+ " file '" +:+ fstr file +:+ "'"))
      | None =>
          Raise (AttributeError ("module '" +:+ __name__ module
                                 +:+ "' has no attribute '__file__'"))
      end
  | r => r
  end.

(** The dict comprehension of lines 105-108, entries in [items()] order. *)
Fixpoint materializers_dict (module : Module)
         (materializers_config : list (string * yaml))
         (acc : list (string * Obj)) : result (list (string * Obj)) :=
  match materializers_config with
  | [] => Ok acc
  | (output_name, source) :: rest =>
      match _get_module_attribute module source with
      | Ok m => materializers_dict module rest (dict_set acc output_name m)
      | Raise e => Raise e
      end
  end.

(** Lines 100-115: a single materializer or a dict of them. *)
Definition resolve_materializers (module : Module)
           (materializers_config : yaml) : result (materializers Obj) :=
  match materializers_config with
  | YStr _ =>
      match _get_module_attribute module materializers_config with
      | Ok m => Ok (MSingle m)
      | Raise e => Raise e
      end
  | YDict d =>
      match materializers_dict module d [] with
      | Ok ms => Ok (MDict ms)
      | Raise e => Raise e
      end
  | _ =>
      Raise (PipelineConfigurationError
               ("Only `str` and `dict` values are allowed for "
                +:+ "'materializers' attribute of a step configuration. You "
                +:+ "tried to pass in `" +:+ fstr materializers_config
                +:+ "` (type: " +:+ "`" +:+ type_name materializers_config
                +:+ "`)."))
  end.

(** The body of the loop over the steps (lines 89-118): the step instance
    that goes into [steps[step_name]]. *)
Definition build_step (module : Module) (step_config : yaml) : M Obj :=
  extern (StepKeyCheck step_config) unit_value (step_key_check step_config) ;;;
  source <- lift (getitem step_config StepConfigurationKeys.SOURCE_) ;;
  step_class <- lift (_get_module_attribute module source) ;;
  step_instance <- extern (StepClass step_class) VObj (py_call step_class []) ;;
  materializers_config <-
    lift (get_or_none step_config StepConfigurationKeys.MATERIALIZERS_) ;;
  if truthy materializers_config then
    ms <- lift (resolve_materializers module materializers_config) ;;
    extern (WithReturnMaterializers step_instance ms) VObj
           (with_return_materializers step_instance ms)
  else
    ret step_instance.

(** The loop of lines 85-120 over [config["steps"].items()]. *)
Fixpoint build_steps (module : Module) (step_configs : list (string * yaml))
         (steps : list (string * Obj)) : M (list (string * Obj)) :=
  match step_configs with
  | [] => ret steps
  | (step_name, step_config) :: rest =>
      step_instance <- build_step module step_config ;;
      build_steps module rest (dict_set steps step_name step_instance)
  end.

(** [zenml pipeline run PYTHON_FILE -c CONFIG_PATH].  The click options
    (the config path must name an existing file) are checked before the
    function is entered. *)
Definition run_pipeline (python_file config_path : string) : M unit :=
  module <- extern (ImportPythonFile python_file) VModule
                   (import_python_file python_file) ;;
  config <- extern (ReadYaml config_path) VYaml (read_yaml config_path) ;;
  extern (PipelineKeyCheck config) unit_value (pipeline_key_check config) ;;;
  pipeline_name <- lift (getitem config PipelineConfigurationKeys.NAME) ;;
  pipeline_class <- lift (_get_module_attribute module pipeline_name) ;;
  steps_config <- lift (getitem config PipelineConfigurationKeys.STEPS) ;;
  step_configs <- lift (items steps_config) ;;
  steps <- build_steps module step_configs [] ;;
  p <- extern (PipelineClass pipeline_class steps) VObj
              (py_call pipeline_class steps) ;;
  pipeline_instance <- extern (WithConfig p config_path true) VObj
                              (with_config p config_path true) ;;
  extern (LoggerDebug "Finished setting up pipeline '%s' from CLI" pipeline_name)
         unit_value
         (logger_debug "Finished setting up pipeline '%s' from CLI" pipeline_name) ;;;
  extern (Run pipeline_instance None) unit_value (run pipeline_instance None).

(** [cli_utils.error(text)] *)
Definition cli_error (text : string) : M unit :=
  extern (CliError text) unit_value (error text).

Definition pipeline_row (p : PipelineView) : row :=
  [("ID", pretty (_id p)); ("NAME", _name p)].

(** [zenml pipeline list [--project P] [--stack S]] *)
Definition list_pipelines (project stack : option string) : M unit :=
  extern CliPrintActiveProfile unit_value print_active_profile ;;;
  extern NewRepository unit_value new_repository ;;;
  match project with
  | Some pr =>
      try_except_KeyError
        (extern (GetProject pr) unit_value (get_project pr))
        (cli_error ("No such project: '" +:+ pr +:+ "'"))
  | None => ret tt
  end ;;;
  pipelines <- extern (GetPipelines stack project) VViews
                      (get_pipelines stack project) ;;
  let table := map pipeline_row pipelines in
  if negb (Nat.eqb (length table) 0) then
    extern (CliPrintTable table) unit_value (print_table table)
  else
    let for_project :=
      match project with
      | Some pr => " for project '" +:+ pr +:+ "'"
      | None => ""
      end in
    extern (CliDeclare ("No pipelines found" +:+ for_project +:+ "."))
           unit_value
           (declare ("No pipelines found" +:+ for_project +:+ ".")).

Definition run_row (pipeline_name run_name : string) : row :=
  [("PIPELINE", pipeline_name); ("RUN", run_name)].

(** The nested comprehension of lines 175-179: [get_run_names] is called
    on each pipeline in turn. *)
Fixpoint all_run_rows (pipelines : list PipelineView) : M (list row) :=
  match pipelines with
  | [] => ret []
  | p :: rest =>
      names <- extern (GetRunNames p) VNames (get_run_names p) ;;
      rows <- all_run_rows rest ;;
      ret (map (run_row (_name p)) names ++ rows)
  end.

(** [zenml pipeline runs list [PIPELINE] [--stack S]] *)
Definition list_runs (pipeline stack : option string) : M unit :=
  extern CliPrintActiveProfile unit_value print_active_profile ;;;
  extern NewRepository unit_value new_repository ;;;
  table <-
    match pipeline with
    | Some name =>
        pipeline_view <- extern (GetPipeline name stack) VView
                                (get_pipeline name stack) ;;
        match pipeline_view with
        | None => cli_error ("No pipeline named " +:+ name +:+ " found.")
        | Some _ => ret tt
        end ;;;
        match pipeline_view with
        | Some view =>
            names <- extern (GetRunNames view) VNames (get_run_names view) ;;
            ret (map (run_row name) names)
        | None =>
            raise (AttributeError
                     "'NoneType' object has no attribute 'get_run_names'")
        end
    | None =>
        pipelines <- extern (GetPipelines None None) VViews
                            (get_pipelines None None) ;;
        all_run_rows pipelines
    end ;;
  if negb (Nat.eqb (length table) 0) then
    extern (CliPrintTable table) unit_value (print_table table)
  else
    let for_pipeline :=
      match pipeline with
      | None => ""
      | Some name => " for pipeline '" +:+ name +:+ "'"
      end in
    extern (CliDeclare ("No pipeline runs found" +:+ for_pipeline +:+ "."))
           unit_value
           (declare ("No pipeline runs found" +:+ for_pipeline +:+ ".")).

(** ** [examples/kubeflow_pipelines_orchestration/run_schedule.py]

    The five names imported from the example's [pipeline] module are the
    arguments; [__name__] is the module name the file runs under. *)
Definition run_schedule
           (evaluator importer mnist_pipeline normalizer trainer : Obj)
           (__name__ : string) : M unit :=
  if String.eqb __name__ "__main__" then
    i <- extern (StepClass importer) VObj (py_call importer []) ;;
    n <- extern (StepClass normalizer) VObj (py_call normalizer []) ;;
    t <- extern (StepClass trainer) VObj (py_call trainer []) ;;
    e <- extern (StepClass evaluator) VObj (py_call evaluator []) ;;
    let kwargs :=
      [("importer", i); ("normalizer", n); ("trainer", t); ("evaluator", e)] in
    p <- extern (PipelineClass mnist_pipeline kwargs) VObj
                (py_call mnist_pipeline kwargs) ;;
    now1 <- extern DatetimeNow VTime datetime_now ;;
    now2 <- extern DatetimeNow VTime datetime_now ;;
    let schedule :=
      {| start_time := now1;
         end_time := now2 + timedelta_minutes 10;
         interval_second := 60 |} in
    extern (Run p (Some schedule)) unit_value (run p (Some schedule))
  else
    ret tt.
End CLI.

(** ** Vocabulary of the statements *)

Section Vocabulary.
Context {W Obj : Type} {C : Collaborators W Obj}.

(** [confined obs P c]: every run of [c] only adds events whose call
    satisfies [P], and leaves the observation [obs] of the world as it
    was. *)
Definition confined {R A} (obs : W -> R) (P : call Obj -> Prop)
           (c : M W Obj A) : Prop :=
  forall s r s', c s = (r, s') ->
    obs (world s') = obs (world s) /\
    exists evs, trace s' = trace s ++ evs /\ Forall (fun e => P (ev_call e)) evs.

(** [keeps obs f]: the collaborator [f] leaves [obs] as it was. *)
Definition keeps {R A} (obs : W -> R) (f : W -> result A * W) : Prop :=
  forall w r w', f w = (r, w') -> obs w' = obs w.

(** The query operations of the repository and its metadata store. *)
Definition store_query (c : call Obj) : bool :=
  match c with
  | GetProject _ | GetPipelines _ _ | GetPipeline _ _ | GetRunNames _ => true
  | _ => false
  end.

(** Getting hold of the repository object and writing to the console. *)
Definition console (c : call Obj) : bool :=
  match c with
  | NewRepository | CliPrintActiveProfile | CliPrintTable _
  | CliDeclare _ | CliError _ => true
  | _ => false
  end.

(** The calls that create, configure and run the pipeline instance. *)
Definition pipeline_call (c : call Obj) : bool :=
  match c with
  | PipelineClass _ _ | WithConfig _ _ _ | Run _ _ => true
  | _ => false
  end.

Definition is_run (c : call Obj) : bool :=
  match c with Run _ _ => true | _ => false end.

(** How many times [run()] was called in a list of events. *)
Definition runs_started (evs : list (event Obj)) : nat :=
  length (List.filter (fun e => is_run (ev_call e)) evs).

Definition is_with_return_materializers (c : call Obj) : bool :=
  match c with WithReturnMaterializers _ _ => true | _ => false end.

Definition is_get_project (c : call Obj) : bool :=
  match c with GetProject _ => true | _ => false end.

Definition is_get_pipelines (c : call Obj) : bool :=
  match c with GetPipelines _ _ => true | _ => false end.

(** The PipelineConfigurationError of [_get_module_attribute], for a module
    whose [__file__] is [file]. *)
Definition unable_to_load (file : yaml) (attribute_name : string) : exn :=
  PipelineConfigurationError
    ("Unable to load '" +:+ attribute_name +:+ "' from file '"
     +:+ fstr file +:+ "'").

(** The AttributeError of reading [__file__] on a module that has none. *)
Definition no_file_attribute (module : Module Obj) : exn :=
  AttributeError ("module '" +:+ __name__ module
                  +:+ "' has no attribute '__file__'").

(** The exception of lines 110-115. *)
Definition only_str_and_dict (materializers_config : yaml) : exn :=
  PipelineConfigurationError
    ("Only `str` and `dict` values are allowed for 'materializers' attribute "
     +:+ "of a step configuration. You tried to pass in `"
     +:+ fstr materializers_config +:+ "` (type: `"
     +:+ type_name materializers_config +:+ "`).").

(** Lines 78-88 of [run_pipeline], up to the start of the loop: the
    module, the pipeline's name and class, and the step entries. *)
Definition setup (python_file config_path : string)
  : M W Obj (Module Obj * yaml * Obj * list (string * yaml)) :=
  module <- extern (ImportPythonFile python_file) VModule
                   (import_python_file python_file) ;;
  config <- extern (ReadYaml config_path) VYaml (read_yaml config_path) ;;
  extern (PipelineKeyCheck config) unit_value (pipeline_key_check config) ;;;
  pipeline_name <- lift (getitem config PipelineConfigurationKeys.NAME) ;;
  pipeline_class <- lift (_get_module_attribute module pipeline_name) ;;
  steps_config <- lift (getitem config PipelineConfigurationKeys.STEPS) ;;
  step_configs <- lift (items steps_config) ;;
  ret (module, pipeline_name, pipeline_class, step_configs).

(** Lines 122-126 of [run_pipeline], after the loop. *)
Definition finish (config_path : string) (pipeline_name : yaml)
           (pipeline_class : Obj) (steps : list (string * Obj)) : M W Obj unit :=
  p <- extern (PipelineClass pipeline_class steps) VObj
              (py_call pipeline_class steps) ;;
  pipeline_instance <- extern (WithConfig p config_path true) VObj
                              (with_config p config_path true) ;;
  extern (LoggerDebug "Finished setting up pipeline '%s' from CLI" pipeline_name)
         unit_value
         (logger_debug "Finished setting up pipeline '%s' from CLI" pipeline_name) ;;;
  extern (Run pipeline_instance None) unit_value (run pipeline_instance None).

(** A materializers dict entry whose value names an attribute of the
    module. *)
Definition resolved (module : Module Obj) (entry : string * yaml)
           (m : string * Obj) : Prop :=
  fst m = fst entry /\
  exists source, snd entry = YStr source /\ attrs module !! source = Some (snd m).

(** One successful turn of the loop on [step_config]: the events it adds
    and the instance it stores. *)
Inductive step_built (module : Module Obj) (step_config : yaml)
  : list (event Obj) -> Obj -> Prop :=
| built_plain source step_class step_instance materializers_config :
    getitem step_config StepConfigurationKeys.SOURCE_ = Ok (YStr source) ->
    attrs module !! source = Some step_class ->
    get_or_none step_config StepConfigurationKeys.MATERIALIZERS_
    = Ok materializers_config ->
    truthy materializers_config = false ->
    step_built module step_config
      [Ev (StepKeyCheck step_config) (Returned VNone);
       Ev (StepClass step_class) (Returned (VObj step_instance))]
      step_instance
| built_with_materializers source step_class step_instance
                           materializers_config ms step_instance' :
    getitem step_config StepConfigurationKeys.SOURCE_ = Ok (YStr source) ->
    attrs module !! source = Some step_class ->
    get_or_none step_config StepConfigurationKeys.MATERIALIZERS_
    = Ok materializers_config ->
    truthy materializers_config = true ->
    resolve_materializers module materializers_config = Ok ms ->
    step_built module step_config
      [Ev (StepKeyCheck step_config) (Returned VNone);
       Ev (StepClass step_class) (Returned (VObj step_instance));
       Ev (WithReturnMaterializers step_instance ms)
          (Returned (VObj step_instance'))]
      step_instance'.

(** The successful turns of the loop over the step entries, one after the
    other: the events added and, entry by entry, the instance stored
    under the step name. *)
Inductive steps_built (module : Module Obj)
  : list (string * yaml) -> list (event Obj) -> list (string * Obj) -> Prop :=
| steps_built_nil : steps_built module [] [] []
| steps_built_cons step_name step_config rest evs step_instance evs' instances :
    step_built module step_config evs step_instance ->
    steps_built module rest evs' instances ->
    steps_built module ((step_name, step_config) :: rest) (evs ++ evs')
                ((step_name, step_instance) :: instances).

(** [steps[step_name] = step_instance] for each pair in turn. *)
Definition store_all (instances : list (string * Obj)) (steps : list (string * Obj))
  : list (string * Obj) :=
  fold_left (fun acc e => dict_set acc (fst e) (snd e)) instances steps.

(** The last call of a listing command, made in world [w] after the
    events [t]: [print_table] on the rows when there are any, [declare]
    on the text otherwise; its outcome is the command's. *)
Definition prints_or_declares (rows : list row) (text : string) (w : W)
           (t : list (event Obj)) (res : result unit * state W Obj) : Prop :=
  match rows with
  | [] =>
      exists r w',
        declare text w = (r, w') /\
        res = (r, State w' (t ++ [Ev (CliDeclare text) (outcome_of unit_value r)]))
  | _ :: _ =>
      exists r w',
        print_table rows w = (r, w') /\
        res = (r, State w' (t ++ [Ev (CliPrintTable rows) (outcome_of unit_value r)]))
  end.

(** Writing a table or a declaration to the console. *)
Definition is_output (c : call Obj) : bool :=
  match c with
  | CliPrintTable _ | CliDeclare _ => true
  | _ => false
  end.

(** [ends_in_output c]: a run of [c] either raises without having written
    any table or declaration, or makes exactly one such call, as its last
    call and with that call's outcome as its own; a table it prints has at
    least one row. *)
Definition ends_in_output (c : M W Obj unit) : Prop :=
  forall s r s', c s = (r, s') ->
    exists evs, trace s' = trace s ++ evs /\
      ((Forall (fun e => is_output (ev_call e) = false) evs /\ exists e, r = Raise e) \/
       (exists pre c0,
           evs = pre ++ [Ev c0 (outcome_of unit_value r)] /\
           Forall (fun e => is_output (ev_call e) = false) pre /\
           ((exists rows, c0 = CliPrintTable rows /\ rows <> []) \/
            (exists text, c0 = CliDeclare text)))).

(** The calls [run_pipeline python_file config_path] may make, with the
    arguments it may pass. *)
Definition run_pipeline_call (python_file config_path : string) (c : call Obj)
  : Prop :=
  match c with
  | ImportPythonFile f => f = python_file
  | ReadYaml path => path = config_path
  | WithConfig _ path overwrite => path = config_path /\ overwrite = true
  | Run _ schedule => schedule = None
  | PipelineKeyCheck _ | StepKeyCheck _ | StepClass _
  | WithReturnMaterializers _ _ | PipelineClass _ _ | LoggerDebug _ _ => True
  | _ => False
  end.

(** The calls [list_pipelines project stack] may make. *)
Definition list_pipelines_call (project stack : option string) (c : call Obj)
  : Prop :=
  match c with
  | CliPrintActiveProfile | NewRepository | CliPrintTable _ => True
  | GetProject pr => project = Some pr
  | CliError text =>
      exists pr, project = Some pr /\ text = "No such project: '" +:+ pr +:+ "'"
  | GetPipelines stack_name pr => stack_name = stack /\ pr = project
  | CliDeclare text =>
      text = "No pipelines found"
             +:+ match project with
                 | Some pr => " for project '" +:+ pr +:+ "'"
                 | None => ""
                 end
             +:+ "."
  | _ => False
  end.

(** The calls [list_runs pipeline stack] may make. *)
Definition list_runs_call (pipeline stack : option string) (c : call Obj) : Prop :=
  match c with
  | CliPrintActiveProfile | NewRepository | CliPrintTable _ | GetRunNames _ => True
  | GetPipeline name stack_name => pipeline = Some name /\ stack_name = stack
  | CliError text =>
      exists name, pipeline = Some name /\
                   text = "No pipeline named " +:+ name +:+ " found."
  | GetPipelines stack_name pr => pipeline = None /\ stack_name = None /\ pr = None
  | CliDeclare text =>
      text = "No pipeline runs found"
             +:+ match pipeline with
                 | None => ""
                 | Some name => " for pipeline '" +:+ name +:+ "'"
                 end
             +:+ "."
  | _ => False
  end.

(** [get_run_names] returning for each pipeline in turn. *)
Inductive run_names_in_turn
  : list PipelineView -> W -> list (list string) -> W -> Prop :=
| run_names_nil w : run_names_in_turn [] w [] w
| run_names_cons p ps w names w1 namess w2 :
    get_run_names p w = (Ok names, w1) ->
    run_names_in_turn ps w1 namess w2 ->
    run_names_in_turn (p :: ps) w (names :: namess) w2.

(** A truthy materializers configuration whose names the module has: a
    string naming an attribute, or a dict (no key twice) whose values are
    strings naming attributes. *)
Inductive resolves_to (module : Module Obj) : yaml -> materializers Obj -> Prop :=
| resolves_single name m :
    attrs module !! name = Some m ->
    resolves_to module (YStr name) (MSingle m)
| resolves_dict d ms :
    Forall2 (resolved module) d ms ->
    NoDup (map fst d) ->
    resolves_to module (YDict d) (MDict ms).

(** What a turn of the loop on [step_config] needs from the configuration,
    the module and the collaborators, from world [w] on, to store
    [step_instance]: the key check passes, the source is a string naming a
    class that returns an instance when called, and the materializers are
    falsy, or truthy with names the module has and
    [with_return_materializers] returns.  With the events of the turn and
    the world it ends in. *)
Inductive step_goes_through (module : Module Obj) (step_config : yaml) (w : W)
  : list (event Obj) -> Obj -> W -> Prop :=
| goes_through_plain w1 source step_class step_instance w2 materializers_config :
    step_key_check step_config w = (Ok tt, w1) ->
    getitem step_config StepConfigurationKeys.SOURCE_ = Ok (YStr source) ->
    attrs module !! source = Some step_class ->
    py_call step_class [] w1 = (Ok step_instance, w2) ->
    get_or_none step_config StepConfigurationKeys.MATERIALIZERS_
    = Ok materializers_config ->
    truthy materializers_config = false ->
    step_goes_through module step_config w
      [Ev (StepKeyCheck step_config) (Returned VNone);
       Ev (StepClass step_class) (Returned (VObj step_instance))]
      step_instance w2
| goes_through_materializers w1 source step_class step_instance w2
                             materializers_config ms step_instance' w3 :
    step_key_check step_config w = (Ok tt, w1) ->
    getitem step_config StepConfigurationKeys.SOURCE_ = Ok (YStr source) ->
    attrs module !! source = Some step_class ->
    py_call step_class [] w1 = (Ok step_instance, w2) ->
    get_or_none step_config StepConfigurationKeys.MATERIALIZERS_
    = Ok materializers_config ->
    truthy materializers_config = true ->
    resolves_to module materializers_config ms ->
    with_return_materializers step_instance ms w2 = (Ok step_instance', w3) ->
    step_goes_through module step_config w
      [Ev (StepKeyCheck step_config) (Returned VNone);
       Ev (StepClass step_class) (Returned (VObj step_instance));
       Ev (WithReturnMaterializers step_instance ms)
          (Returned (VObj step_instance'))]
      step_instance' w3.

(** The same for the step entries one after the other, each from the world
    the one before ended in. *)
Inductive steps_go_through (module : Module Obj)
  : list (string * yaml) -> W -> list (event Obj) -> list (string * Obj) -> W
    -> Prop :=
| go_through_nil w : steps_go_through module [] w [] [] w
| go_through_cons step_name step_config rest w evs step_instance w1 evs'
                  instances w2 :
    step_goes_through module step_config w evs step_instance w1 ->
    steps_go_through module rest w1 evs' instances w2 ->
    steps_go_through module ((step_name, step_config) :: rest) w (evs ++ evs')
                     ((step_name, step_instance) :: instances) w2.
End Vocabulary.

(** ** A concrete world

    An instance of the collaborators on which the commands can be run:
    symbolic objects, a small file system, a clock that advances at every
    reading, a repository with projects, pipelines and their runs, and the
    list of the runs started so far. *)
Module Demo.

Inductive obj : Type :=
| Class (name : string)
| Instance (cls : obj) (kwargs : list (string * obj)) (serial : nat)
| Materialized (step_instance : obj) (m : materializers obj)
| Configured (pipeline_instance : obj) (config_path : string)
             (overwrite_step_parameters : bool).

Record env : Type := {
  files : list (string * yaml);
  clock : Z;
  created : nat;
  projects : list string;
  store : list (PipelineView * list string);
  started : list (obj * option Schedule)
}.

Definition the_module (python_file : string) : Module obj :=
  {| __name__ := "pipeline";
     __file__ := Some (YStr python_file);
     attrs := list_to_map
                (map (fun n => (n, Class n))
                     ["MnistPipeline"; "Importer"; "Trainer"; "Evaluator";
                      "ModelMaterializer"; "FloatMaterializer"]) |}.

(** A key check in the style of a required/optional key table: the
    configuration is a dict, has every required key and no unknown one. *)
Definition key_check (cls : string) (required optional : list string)
           (config : yaml) : result unit :=
  match config with
  | YDict d =>
      if forallb (fun k => existsb (String.eqb k) (map fst d)) required
         && forallb (fun k => existsb (String.eqb k) (required ++ optional))
                    (map fst d)
      then Ok tt
      else Raise (AssertionError ("Missing or unknown key for " +:+ cls))
  | _ => Raise (AssertionError ("Please specify a dict for " +:+ cls))
  end.

Definition show (v : yaml) : string :=
  match v with
  | YNone => "None"
  | YBool true => "True"
  | YBool false => "False"
  | YInt z => pretty z
  | YStr s => s
  | YList _ => "[...]"
  | YDict _ => "{...}"
  end.

Definition find_view (name : string) (w : env) : option PipelineView :=
  match List.filter (fun p => String.eqb (_name p) name) (map fst (store w)) with
  | p :: _ => Some p
  | [] => None
  end.

Definition run_names_of (p : PipelineView) (w : env) : list string :=
  concat (map snd (List.filter (fun e => Z.eqb (_id (fst e)) (_id p)) (store w))).

#[export] Instance collaborators : Collaborators env obj := {|
  py_str := show;
  import_python_file f w := (Ok (the_module f), w);
  read_yaml path w :=
    (match dict_get (files w) path with
     | Some y => Ok y
     | None => Raise (OtherError "FileNotFoundError" path)
     end, w);
  pipeline_key_check config w :=
    (key_check "PipelineConfigurationKeys" ["name"; "steps"] [] config, w);
  step_key_check config w :=
    (key_check "StepConfigurationKeys" []
               ["source"; "parameters"; "materializers"] config, w);
  py_call cls kwargs w :=
    (Ok (Instance cls kwargs (created w)),
     {| files := files w; clock := clock w; created := S (created w);
        projects := projects w; store := store w; started := started w |});
  with_return_materializers inst m w := (Ok (Materialized inst m), w);
  with_config p path overwrite w := (Ok (Configured p path overwrite), w);
  run p schedule w :=
    (Ok tt,
     {| files := files w; clock := clock w; created := created w;
        projects := projects w; store := store w;
        started := started w ++ [(p, schedule)] |});
  logger_debug _ _ w := (Ok tt, w);
  datetime_now w :=
    (Ok (clock w),
     {| files := files w; clock := clock w + 1; created := created w;
        projects := projects w; store := store w; started := started w |});
  print_active_profile w := (Ok tt, w);
  print_table _ w := (Ok tt, w);
  declare _ w := (Ok tt, w);
  error text w := (Raise (OtherError "ClickException" text), w);
  new_repository w := (Ok tt, w);
  get_project project w :=
    (if existsb (String.eqb project) (projects w) then Ok tt
     else Raise (KeyError project), w);
  get_pipelines _ _ w := (Ok (map fst (store w)), w);
  get_pipeline name _ w := (Ok (find_view name w), w);
  get_run_names p w := (Ok (run_names_of p w), w)
|}.

Definition step (source : string) (extra : list (string * yaml)) : yaml :=
  YDict (("source", YStr source) :: extra).

Definition pipeline_config (steps : list (string * yaml)) : yaml :=
  YDict [("name", YStr "MnistPipeline"); ("steps", YDict steps)].

(** A configuration with a plain step, a step with a single materializer
    and a step with a dict of materializers. *)
Definition good_config : yaml :=
  pipeline_config
    [("importer", step "Importer" []);
     ("trainer", step "Trainer" [("materializers", YStr "ModelMaterializer")]);
     ("evaluator",
      step "Evaluator"
           [("materializers", YDict [("accuracy", YStr "FloatMaterializer")])])].

(** A step whose source names no class of the module. *)
Definition unknown_step_config : yaml :=
  pipeline_config
    [("importer", step "Importer" []);
     ("trainer", step "NoSuchStep" [])].

(** A pipeline name that names no class of the module. *)
Definition unknown_pipeline_config : yaml :=
  YDict [("name", YStr "NoSuchPipeline");
         ("steps", YDict [("importer", step "Importer" [])])].

(** Materializers that are neither a string nor a dict. *)
Definition list_materializers_config : yaml :=
  pipeline_config
    [("importer", step "Importer" []);
     ("trainer",
      step "Trainer" [("materializers", YList [YStr "ModelMaterializer"])])].

(** Falsy materializers. *)
Definition empty_materializers_config : yaml :=
  pipeline_config
    [("importer", step "Importer" [("materializers", YStr "")])].

Definition mnist : PipelineView := {| _id := 1; _name := "mnist_pipeline" |}.
Definition iris : PipelineView := {| _id := 2; _name := "iris_pipeline" |}.

Definition w0 : env :=
  {| files := [("good.yaml", good_config);
               ("unknown_step.yaml", unknown_step_config);
               ("unknown_pipeline.yaml", unknown_pipeline_config);
               ("list_materializers.yaml", list_materializers_config);
               ("empty_materializers.yaml", empty_materializers_config)];
     clock := 1650000000000000;
     created := 0;
     projects := ["default"];
     store := [(mnist, ["run_1"; "run_2"]); (iris, ["run_a"])];
     started := [] |}.

(** The same world with an empty metadata store. *)
Definition w_empty : env :=
  {| files := files w0; clock := clock w0; created := 0;
     projects := projects w0; store := []; started := [] |}.

(** The repository of the concrete world: its projects, its pipelines
    with their runs, and the runs started. *)
Definition repository_of (w : env)
  : list string * list (PipelineView * list string) * list (obj * option Schedule) :=
  (projects w, store w, started w).

(** A built-in module: no [__file__]. *)
Definition builtin_module : Module obj :=
  {| __name__ := "sys";
     __file__ := None;
     attrs := list_to_map [("path", Class "path"); ("argv", Class "argv")] |}.




(** A configuration whose 'steps' entry is a list. *)
Definition steps_list_config : yaml :=
  YDict [("name", YStr "MnistPipeline");
         ("steps", YList [YStr "Importer"; YStr "Trainer"])].

(** The world [w0] with that configuration among its files. *)
Definition w_shapes : env :=
  {| files := [("steps_list.yaml", steps_list_config)];
     clock := clock w0; created := 0; projects := projects w0;
     store := store w0; started := [] |}.

(** The collaborators with a zen store that cannot be reached: the project
    lookup raises an exception that is not a KeyError. *)
Definition unreachable_store : Collaborators env obj :=
  {| py_str := py_str (Collaborators := collaborators);
     import_python_file := import_python_file (Collaborators := collaborators);
     read_yaml := read_yaml (Collaborators := collaborators);
     pipeline_key_check := pipeline_key_check (Collaborators := collaborators);
     step_key_check := step_key_check (Collaborators := collaborators);
     py_call := py_call (Collaborators := collaborators);
     with_return_materializers :=
       with_return_materializers (Collaborators := collaborators);
     with_config := with_config (Collaborators := collaborators);
     run := run (Collaborators := collaborators);
     logger_debug := logger_debug (Collaborators := collaborators);
     datetime_now := datetime_now (Collaborators := collaborators);
     print_active_profile := print_active_profile (Collaborators := collaborators);
     print_table := print_table (Collaborators := collaborators);
     declare := declare (Collaborators := collaborators);
     error := error (Collaborators := collaborators);
     new_repository := new_repository (Collaborators := collaborators);
     get_project project w := (Raise (OtherError "ConnectionError" project), w);
     get_pipelines := get_pipelines (Collaborators := collaborators);
     get_pipeline := get_pipeline (Collaborators := collaborators);
     get_run_names := get_run_names (Collaborators := collaborators) |}.

Definition s0 : state env obj := {| world := w0; trace := [] |}.
Definition s_empty : state env obj := {| world := w_empty; trace := [] |}.
End Demo.

(** * Properties *)

(** ** Stepping through the monad *)

Section Steps.
Context {W Obj : Type}.
Implicit Types (w : W) (t : list (event Obj)).

Lemma bind_ret {A B} (a : A) (k : A -> M W Obj B) s : bind (ret a) k s = k a s.
Proof. reflexivity. Qed.

Lemma bind_lift_ok {A B} (r : result A) (a : A) (k : A -> M W Obj B) s :
  r = Ok a -> bind (lift r) k s = k a s.
Proof. intros ->. reflexivity. Qed.

Lemma bind_lift_raise {A B} (r : result A) e (k : A -> M W Obj B) s :
  r = Raise e -> bind (lift r) k s = (Raise e, s).
Proof. intros ->. reflexivity. Qed.

Lemma extern_eq {A} c (inj : A -> value Obj) f w t r w' :
  f w = (r, w') ->
  extern c inj f (State w t) = (r, State w' (t ++ [Ev c (outcome_of inj r)])).
Proof. unfold extern; simpl. intros ->. reflexivity. Qed.

Lemma bind_extern_ok {A B} c (inj : A -> value Obj) f (k : A -> M W Obj B)
      w t a w' :
  f w = (Ok a, w') ->
  bind (extern c inj f) k (State w t)
  = k a (State w' (t ++ [Ev c (Returned (inj a))])).
Proof. intros H. unfold bind. rewrite (extern_eq _ _ _ _ _ _ _ H). reflexivity. Qed.

Lemma bind_extern_raise {A B} c (inj : A -> value Obj) f (k : A -> M W Obj B)
      w t e w' :
  f w = (Raise e, w') ->
  bind (extern c inj f) k (State w t)
  = (Raise e, State w' (t ++ [Ev c (Raised e)])).
Proof. intros H. unfold bind. rewrite (extern_eq _ _ _ _ _ _ _ H). reflexivity. Qed.

Lemma bind_assoc {A B D} (c : M W Obj A) (k : A -> M W Obj B)
      (h : B -> M W Obj D) s :
  bind (bind c k) h s = bind c (fun a => bind (k a) h) s.
Proof. unfold bind. destruct (c s) as [[a|e] s1]; reflexivity. Qed.

Section Confined.
Context {R : Type} (obs : W -> R) (P : call Obj -> Prop).

Lemma confined_ret {A} (a : A) : confined obs P (ret a).
Proof.
  intros s r s' [= <- <-]. split; [done|]. exists []. by rewrite app_nil_r.
Qed.

Lemma confined_raise {A} e : confined obs P (@raise W Obj A e).
Proof.
  intros s r s' [= <- <-]. split; [done|]. exists []. by rewrite app_nil_r.
Qed.

Lemma confined_lift {A} (x : result A) : confined obs P (lift x).
Proof.
  intros s r s' [= <- <-]. split; [done|]. exists []. by rewrite app_nil_r.
Qed.

Lemma confined_extern {A} c (inj : A -> value Obj) f :
  P c -> keeps obs f -> confined obs P (extern c inj f).
Proof.
  intros Hc Hf [w t] r s'. unfold extern; simpl.
  destruct (f w) as [r1 w1] eqn:E. intros [= <- <-]; simpl.
  split; [by eapply Hf|]. eexists; split; [done|]. by repeat constructor.
Qed.

Lemma confined_bind {A B} (c : M W Obj A) (k : A -> M W Obj B) :
  confined obs P c -> (forall a, confined obs P (k a)) ->
  confined obs P (bind c k).
Proof.
  intros Hc Hk s r s'. unfold bind.
  destruct (c s) as [[a|e] s1] eqn:E; intros H.
  - destruct (Hc _ _ _ E) as (Ho1 & evs1 & Ht1 & Hf1).
    destruct (Hk a _ _ _ H) as (Ho2 & evs2 & Ht2 & Hf2).
    split; [congruence|]. exists (evs1 ++ evs2).
    rewrite Ht2, Ht1, app_assoc. split; [done|]. by apply Forall_app.
  - injection H as <- <-. by apply (Hc _ _ _ E).
Qed.

Lemma confined_try {A} (c h : M W Obj A) :
  confined obs P c -> confined obs P h ->
  confined obs P (try_except_KeyError c h).
Proof.
  intros Hc Hh s r s'. unfold try_except_KeyError.
  destruct (c s) as [r1 s1] eqn:E.
  assert (Hcase : (exists k, r1 = Raise (KeyError k)) \/
                  (forall k, r1 <> Raise (KeyError k))).
  { destruct r1 as [a|[]]; eauto; right; congruence. }
  destruct Hcase as [[k ->]|Hne].
  - intros H.
    destruct (Hc _ _ _ E) as (Ho1 & evs1 & Ht1 & Hf1).
    destruct (Hh _ _ _ H) as (Ho2 & evs2 & Ht2 & Hf2).
    split; [congruence|]. exists (evs1 ++ evs2).
    rewrite Ht2, Ht1, app_assoc. split; [done|]. by apply Forall_app.
  - intros H. assert ((r1, s1) = (r, s')) as [= <- <-].
    { destruct r1 as [a|[]]; try done. by destruct (Hne key). }
    by apply (Hc _ _ _ E).
Qed.

Lemma confined_weaken {A} (Q : call Obj -> Prop) (c : M W Obj A) :
  (forall x, P x -> Q x) -> confined obs P c -> confined obs Q c.
Proof.
  intros HPQ Hc s r s' H. destruct (Hc _ _ _ H) as (Ho & evs & Ht & Hf).
  split; [done|]. exists evs. split; [done|].
  eapply Forall_impl; [exact Hf|]. intros e. apply HPQ.
Qed.
End Confined.
End Steps.

(** ** Looking names up in the module *)

Section Lookup.
Context {W Obj : Type} {C : Collaborators W Obj}.
Implicit Types (module : Module Obj) (w : W) (t : list (event Obj)).

Lemma get_module_attribute_found module name v :
  attrs module !! name = Some v ->
  _get_module_attribute module (YStr name) = Ok v.
Proof. unfold _get_module_attribute, getattr. by intros ->. Qed.

Lemma get_module_attribute_missing module name file :
  attrs module !! name = None ->
  __file__ module = Some file ->
  _get_module_attribute module (YStr name) = Raise (unable_to_load file name).
Proof. unfold _get_module_attribute, getattr. by intros -> ->. Qed.

Lemma get_module_attribute_no_file module name :
  attrs module !! name = None ->
  __file__ module = None ->
  _get_module_attribute module (YStr name) = Raise (no_file_attribute module).
Proof. unfold _get_module_attribute, getattr. by intros -> ->. Qed.

Lemma get_module_attribute_no_AttributeError module file attribute_name msg :
  __file__ module = Some file ->
  _get_module_attribute module attribute_name <> Raise (AttributeError msg).
Proof.
  unfold _get_module_attribute, getattr. intros ->.
  destruct attribute_name; try discriminate.
  destruct (attrs module !! s); discriminate.
Qed.

(** A successful lookup was the lookup of a string naming an attribute. *)
Lemma get_module_attribute_ok_inv module attribute_name v :
  _get_module_attribute module attribute_name = Ok v ->
  exists name, attribute_name = YStr name /\ attrs module !! name = Some v.
Proof.
  unfold _get_module_attribute, getattr.
  destruct attribute_name; try discriminate.
  destruct (attrs module !! s) eqn:E; [|by destruct (__file__ module)].
  intros [= ->]. eauto.
Qed.

(** The dict comprehension on entries that all resolve. *)
Lemma materializers_dict_resolved module d ms acc :
  Forall2 (resolved module) d ms ->
  materializers_dict module d acc = Ok (store_all ms acc).
Proof.
  intros H. revert acc.
  induction H as [|[out v] [out' m] d ms (Hk & src & Hv & Hm) _ IH]; intros acc.
  - reflexivity.
  - simpl in *. subst. rewrite (get_module_attribute_found _ _ _ Hm). apply IH.
Qed.

(** ... and on entries that resolve up to one that names nothing. *)
Lemma materializers_dict_missing module pre ms out name post acc file :
  Forall2 (resolved module) pre ms ->
  attrs module !! name = None ->
  __file__ module = Some file ->
  materializers_dict module (pre ++ (out, YStr name) :: post) acc
  = Raise (unable_to_load file name).
Proof.
  intros H Hn Hfile. revert acc.
  induction H as [|[o v] [o' m] d ms' (Hk & src & Hv & Hm) _ IH]; intros acc.
  - simpl. by rewrite (get_module_attribute_missing _ _ _ Hn Hfile).
  - simpl in *. subst. rewrite (get_module_attribute_found _ _ _ Hm). apply IH.
Qed.

(** Storing under distinct fresh keys appends. *)
Lemma dict_set_fresh {V} (d : list (string * V)) k v :
  k ∉ map fst d -> dict_set d k v = d ++ [(k, v)].
Proof.
  induction d as [|[k' v'] d IH]; simpl; intros H; [done|].
  apply not_elem_of_cons in H as [Hne Hd].
  destruct (String.eqb_spec k' k) as [->|_]; [done|]. by rewrite IH.
Qed.

Lemma store_all_nodup (instances acc : list (string * Obj)) :
  NoDup (map fst (acc ++ instances)) ->
  store_all instances acc = acc ++ instances.
Proof.
  revert acc. induction instances as [|[k v] l IH]; intros acc H; simpl.
  - by rewrite app_nil_r.
  - unfold store_all in *. simpl.
    rewrite dict_set_fresh.
    + rewrite IH; rewrite <- app_assoc; [done|exact H].
    + rewrite map_app in H. simpl in H.
      apply NoDup_app in H as (_ & Hd & _).
      intros Hin. apply (Hd _ Hin). left.
  Qed.
End Lookup.

(** ** One turn of the loop over the steps *)

Section BuildStep.
Context {W Obj : Type} {C : Collaborators W Obj}.
Implicit Types (module : Module Obj) (w : W) (t : list (event Obj)).

Lemma confined_bind_lift {R A B} (obs : W -> R) P (x : result A)
      (k : A -> M W Obj B) :
  (forall a, x = Ok a -> confined obs P (k a)) ->
  confined obs P (bind (lift x) k).
Proof.
  intros Hk. destruct x as [a|e].
  - intros s r s' H. exact (Hk a eq_refl _ _ _ H).
  - intros s r s' [= <- <-]. split; [done|]. exists []. by rewrite app_nil_r.
Qed.

(** The turn up to the test of the materializers. *)
Lemma build_step_reach module step_config w t w1 source step_class
      step_instance w2 materializers_config :
  step_key_check step_config w = (Ok tt, w1) ->
  getitem step_config StepConfigurationKeys.SOURCE_ = Ok (YStr source) ->
  attrs module !! source = Some step_class ->
  py_call step_class [] w1 = (Ok step_instance, w2) ->
  get_or_none step_config StepConfigurationKeys.MATERIALIZERS_
  = Ok materializers_config ->
  build_step module step_config (State w t)
  = (if truthy materializers_config then
       ms <- lift (resolve_materializers module materializers_config) ;;
       extern (WithReturnMaterializers step_instance ms) VObj
              (with_return_materializers step_instance ms)
     else ret step_instance)
      (State w2 (t ++ [Ev (StepKeyCheck step_config) (Returned VNone);
                       Ev (StepClass step_class) (Returned (VObj step_instance))])).
Proof.
  intros Hk Hs Hc Hi Hm. unfold build_step.
  rewrite (bind_extern_ok _ _ _ _ _ _ _ _ Hk).
  rewrite (bind_lift_ok _ _ _ _ Hs).
  rewrite (bind_lift_ok _ _ _ _ (get_module_attribute_found _ _ _ Hc)).
  rewrite (bind_extern_ok _ _ _ _ _ _ _ _ Hi).
  rewrite (bind_lift_ok _ _ _ _ Hm).
  by rewrite <- app_assoc.
Qed.

Lemma build_step_plain module step_config w t w1 source step_class
      step_instance w2 materializers_config :
  step_key_check step_config w = (Ok tt, w1) ->
  getitem step_config StepConfigurationKeys.SOURCE_ = Ok (YStr source) ->
  attrs module !! source = Some step_class ->
  py_call step_class [] w1 = (Ok step_instance, w2) ->
  get_or_none step_config StepConfigurationKeys.MATERIALIZERS_
  = Ok materializers_config ->
  truthy materializers_config = false ->
  build_step module step_config (State w t)
  = (Ok step_instance,
     State w2 (t ++ [Ev (StepKeyCheck step_config) (Returned VNone);
                     Ev (StepClass step_class) (Returned (VObj step_instance))])).
Proof.
  intros Hk Hs Hc Hi Hm Hf.
  rewrite (build_step_reach _ _ _ _ _ _ _ _ _ _ Hk Hs Hc Hi Hm). by rewrite Hf.
Qed.

Lemma build_step_resolved module step_config w t w1 source step_class
      step_instance w2 materializers_config ms r w3 :
  step_key_check step_config w = (Ok tt, w1) ->
  getitem step_config StepConfigurationKeys.SOURCE_ = Ok (YStr source) ->
  attrs module !! source = Some step_class ->
  py_call step_class [] w1 = (Ok step_instance, w2) ->
  get_or_none step_config StepConfigurationKeys.MATERIALIZERS_
  = Ok materializers_config ->
  truthy materializers_config = true ->
  resolve_materializers module materializers_config = Ok ms ->
  with_return_materializers step_instance ms w2 = (r, w3) ->
  build_step module step_config (State w t)
  = (r,
     State w3 (t ++ [Ev (StepKeyCheck step_config) (Returned VNone);
                     Ev (StepClass step_class) (Returned (VObj step_instance));
                     Ev (WithReturnMaterializers step_instance ms)
                        (outcome_of VObj r)])).
Proof.
  intros Hk Hs Hc Hi Hm Ht Hr Hw.
  rewrite (build_step_reach _ _ _ _ _ _ _ _ _ _ Hk Hs Hc Hi Hm). rewrite Ht.
  rewrite (bind_lift_ok _ _ _ _ Hr).
  rewrite (extern_eq _ _ _ _ _ _ _ Hw). by rewrite <- app_assoc.
Qed.

Lemma build_step_unresolved module step_config w t w1 source step_class
      step_instance w2 materializers_config e :
  step_key_check step_config w = (Ok tt, w1) ->
  getitem step_config StepConfigurationKeys.SOURCE_ = Ok (YStr source) ->
  attrs module !! source = Some step_class ->
  py_call step_class [] w1 = (Ok step_instance, w2) ->
  get_or_none step_config StepConfigurationKeys.MATERIALIZERS_
  = Ok materializers_config ->
  truthy materializers_config = true ->
  resolve_materializers module materializers_config = Raise e ->
  build_step module step_config (State w t)
  = (Raise e,
     State w2 (t ++ [Ev (StepKeyCheck step_config) (Returned VNone);
                     Ev (StepClass step_class) (Returned (VObj step_instance))])).
Proof.
  intros Hk Hs Hc Hi Hm Ht Hr.
  rewrite (build_step_reach _ _ _ _ _ _ _ _ _ _ Hk Hs Hc Hi Hm). rewrite Ht.
  by rewrite (bind_lift_raise _ _ _ _ Hr).
Qed.

Lemma build_step_unknown_source module step_config w t w1 source file :
  step_key_check step_config w = (Ok tt, w1) ->
  getitem step_config StepConfigurationKeys.SOURCE_ = Ok (YStr source) ->
  attrs module !! source = None ->
  __file__ module = Some file ->
  build_step module step_config (State w t)
  = (Raise (unable_to_load file source),
     State w1 (t ++ [Ev (StepKeyCheck step_config) (Returned VNone)])).
Proof.
  intros Hk Hs Hc Hfile. unfold build_step.
  rewrite (bind_extern_ok _ _ _ _ _ _ _ _ Hk).
  rewrite (bind_lift_ok _ _ _ _ Hs).
  by rewrite (bind_lift_raise _ _ _ _
                (get_module_attribute_missing _ _ _ Hc Hfile)).
Qed.

(** Whatever happens, a turn only checks keys, calls the step class and
    attaches materializers. *)
Lemma build_step_confined {R} (obs : W -> R) (P : call Obj -> Prop)
      module step_config :
  (forall c, P (StepKeyCheck c)) -> (forall c, P (StepClass c)) ->
  (forall i m, P (WithReturnMaterializers i m)) ->
  (forall c, keeps obs (step_key_check c)) ->
  (forall c k, keeps obs (py_call c k)) ->
  (forall i m, keeps obs (with_return_materializers i m)) ->
  confined obs P (build_step module step_config).
Proof.
  intros P1 P2 P3 K1 K2 K3. unfold build_step.
  apply confined_bind; [by apply confined_extern|]; intros _.
  apply confined_bind; [apply confined_lift|]; intros source.
  apply confined_bind; [apply confined_lift|]; intros step_class.
  apply confined_bind; [by apply confined_extern|]; intros step_instance.
  apply confined_bind; [apply confined_lift|]; intros mc.
  destruct (truthy mc); [|apply confined_ret].
  apply confined_bind; [apply confined_lift|]; intros ms.
  by apply confined_extern.
Qed.

(** A turn that stores an instance went through the lookup of a source
    that names a class, and added the events of [step_built]. *)
Lemma build_step_ok_inv module step_config s step_instance s' :
  build_step module step_config s = (Ok step_instance, s') ->
  exists evs, trace s' = trace s ++ evs /\
              step_built module step_config evs step_instance.
Proof.
  destruct s as [w t]. unfold build_step.
  destruct (step_key_check step_config w) as [[[]|e] w1] eqn:Hk;
    [rewrite (bind_extern_ok _ _ _ _ _ _ _ _ Hk)
    |by rewrite (bind_extern_raise _ _ _ _ _ _ _ _ Hk)].
  destruct (getitem step_config StepConfigurationKeys.SOURCE_) as [src|e] eqn:Hs;
    [rewrite (bind_lift_ok _ _ _ _ eq_refl)|by rewrite (bind_lift_raise _ _ _ _ eq_refl)].
  destruct (_get_module_attribute module src) as [cls|e] eqn:Hc;
    [rewrite (bind_lift_ok _ _ _ _ eq_refl)|by rewrite (bind_lift_raise _ _ _ _ eq_refl)].
  apply get_module_attribute_ok_inv in Hc as (source & -> & Hc).
  destruct (py_call cls [] w1) as [[inst|e] w2] eqn:Hi;
    [rewrite (bind_extern_ok _ _ _ _ _ _ _ _ Hi)
    |by rewrite (bind_extern_raise _ _ _ _ _ _ _ _ Hi)].
  destruct (get_or_none step_config StepConfigurationKeys.MATERIALIZERS_)
    as [mc|e] eqn:Hm;
    [rewrite (bind_lift_ok _ _ _ _ eq_refl)|by rewrite (bind_lift_raise _ _ _ _ eq_refl)].
  destruct (truthy mc) eqn:Ht.
  - destruct (resolve_materializers module mc) as [ms|e] eqn:Hr;
      [rewrite (bind_lift_ok _ _ _ _ eq_refl)|by rewrite (bind_lift_raise _ _ _ _ eq_refl)].
    destruct (with_return_materializers inst ms w2) as [r w3] eqn:Hw.
    rewrite (extern_eq _ _ _ _ _ _ _ Hw). intros [= -> <-]; simpl.
    eexists. rewrite <- !app_assoc. split; [reflexivity|].
    simpl. by eapply built_with_materializers.
  - intros [= <- <-]; simpl.
    eexists. rewrite <- !app_assoc. split; [reflexivity|].
    simpl. by eapply built_plain.
Qed.
End BuildStep.

(** ** The loop and the three phases of [run_pipeline] *)

Section RunPipeline.
Context {W Obj : Type} {C : Collaborators W Obj}.
Implicit Types (module : Module Obj) (w : W) (t : list (event Obj)).

Lemma build_steps_app module pre rest steps s :
  build_steps module (pre ++ rest) steps s
  = bind (build_steps module pre steps) (build_steps module rest) s.
Proof.
  revert steps s. induction pre as [|[k cfg] pre IH]; intros steps s.
  - reflexivity.
  - simpl. unfold bind.
    destruct (build_step module cfg s) as [[inst|e] s1]; [|reflexivity].
    rewrite IH. reflexivity.
Qed.

Lemma build_steps_confined {R} (obs : W -> R) (P : call Obj -> Prop)
      module step_configs steps :
  (forall c, P (StepKeyCheck c)) -> (forall c, P (StepClass c)) ->
  (forall i m, P (WithReturnMaterializers i m)) ->
  (forall c, keeps obs (step_key_check c)) ->
  (forall c k, keeps obs (py_call c k)) ->
  (forall i m, keeps obs (with_return_materializers i m)) ->
  confined obs P (build_steps module step_configs steps).
Proof.
  intros P1 P2 P3 K1 K2 K3. revert steps.
  induction step_configs as [|[k cfg] rest IH]; intros steps; simpl.
  - apply confined_ret.
  - apply confined_bind; [by apply build_step_confined|]. intros inst. apply IH.
Qed.

Lemma build_steps_ok_inv module step_configs steps0 s steps s' :
  build_steps module step_configs steps0 s = (Ok steps, s') ->
  exists evs instances,
    trace s' = trace s ++ evs /\
    steps_built module step_configs evs instances /\
    steps = store_all instances steps0.
Proof.
  revert steps0 s. induction step_configs as [|[k cfg] rest IH]; intros steps0 s.
  - intros [= <- <-]. exists [], []. rewrite app_nil_r.
    split; [done|]. split; [constructor|done].
  - simpl. unfold bind.
    destruct (build_step module cfg s) as [[inst|e] s1] eqn:E; [|discriminate].
    intros H. apply build_step_ok_inv in E as (evs1 & Ht1 & Hb1).
    apply IH in H as (evs2 & insts & Ht2 & Hb2 & ->).
    exists (evs1 ++ evs2), ((k, inst) :: insts).
    rewrite Ht2, Ht1, app_assoc. split; [done|]. split; [|done].
    by constructor.
Qed.

Lemma steps_built_keys module step_configs evs instances :
  steps_built module step_configs evs instances ->
  map fst instances = map fst step_configs.
Proof. induction 1; simpl; congruence. Qed.

Lemma steps_built_calls module step_configs evs instances :
  steps_built module step_configs evs instances ->
  Forall (fun e => pipeline_call (ev_call e) = false) evs.
Proof.
  induction 1 as [|k cfg rest evs inst evs' insts Hb _ IH]; [constructor|].
  apply Forall_app. split; [|exact IH].
  destruct Hb; by repeat constructor.
Qed.

(** [run_pipeline] is its three phases in a row. *)
Lemma run_pipeline_eq python_file config_path s :
  run_pipeline python_file config_path s
  = bind (setup python_file config_path)
         (fun '(module, pipeline_name, pipeline_class, step_configs) =>
            bind (build_steps module step_configs [])
                 (finish config_path pipeline_name pipeline_class)) s.
Proof.
  destruct s as [w t]. unfold run_pipeline, setup.
  do 3 (rewrite bind_assoc;
        match goal with
        | |- bind (extern _ _ ?f) _ (State ?w0 _) = _ =>
            let H := fresh in
            destruct (f w0) as [[?|?] ?] eqn:H;
            [rewrite !(bind_extern_ok _ _ _ _ _ _ _ _ H)
            |by rewrite !(bind_extern_raise _ _ _ _ _ _ _ _ H)]
        end).
  do 4 (rewrite bind_assoc;
        match goal with
        | |- bind (lift ?x) _ _ = _ =>
            destruct x as [?|?];
            [rewrite !(bind_lift_ok _ _ _ _ eq_refl)
            |by rewrite !(bind_lift_raise _ _ _ _ eq_refl)]
        end).
  reflexivity.
Qed.

Lemma setup_confined {R} (obs : W -> R) (P : call Obj -> Prop)
      python_file config_path :
  (forall f, P (ImportPythonFile f)) -> (forall c, P (ReadYaml c)) ->
  (forall c, P (PipelineKeyCheck c)) ->
  (forall f, keeps obs (import_python_file f)) ->
  (forall c, keeps obs (read_yaml c)) ->
  (forall c, keeps obs (pipeline_key_check c)) ->
  confined obs P (setup python_file config_path).
Proof.
  intros P1 P2 P3 K1 K2 K3. unfold setup.
  apply confined_bind; [by apply confined_extern|]; intros module.
  apply confined_bind; [by apply confined_extern|]; intros config.
  apply confined_bind; [by apply confined_extern|]; intros _.
  repeat (apply confined_bind; [apply confined_lift|]; intros ?).
  apply confined_ret.
Qed.

Lemma setup_ok_inv python_file config_path s module pipeline_name
      pipeline_class step_configs s' :
  setup python_file config_path s
  = (Ok (module, pipeline_name, pipeline_class, step_configs), s') ->
  exists config name w1 w2,
    import_python_file python_file (world s) = (Ok module, w1) /\
    read_yaml config_path w1 = (Ok config, w2) /\
    pipeline_key_check config w2 = (Ok tt, world s') /\
    trace s' = trace s ++ [Ev (ImportPythonFile python_file) (Returned (VModule module));
                           Ev (ReadYaml config_path) (Returned (VYaml config));
                           Ev (PipelineKeyCheck config) (Returned VNone)] /\
    pipeline_name = YStr name /\
    getitem config PipelineConfigurationKeys.NAME = Ok (YStr name) /\
    attrs module !! name = Some pipeline_class /\
    getitem config PipelineConfigurationKeys.STEPS = Ok (YDict step_configs).
Proof.
  destruct s as [w t]. unfold setup.
  destruct (import_python_file python_file w) as [[m|e] w1] eqn:H1;
    [rewrite (bind_extern_ok _ _ _ _ _ _ _ _ H1)
    |by rewrite (bind_extern_raise _ _ _ _ _ _ _ _ H1)].
  destruct (read_yaml config_path w1) as [[config|e] w2] eqn:H2;
    [rewrite (bind_extern_ok _ _ _ _ _ _ _ _ H2)
    |by rewrite (bind_extern_raise _ _ _ _ _ _ _ _ H2)].
  destruct (pipeline_key_check config w2) as [[[]|e] w3] eqn:H3;
    [rewrite (bind_extern_ok _ _ _ _ _ _ _ _ H3)
    |by rewrite (bind_extern_raise _ _ _ _ _ _ _ _ H3)].
  destruct (getitem config PipelineConfigurationKeys.NAME) as [pn|e] eqn:H4;
    [rewrite (bind_lift_ok _ _ _ _ eq_refl)|by rewrite (bind_lift_raise _ _ _ _ eq_refl)].
  destruct (_get_module_attribute m pn) as [pc|e] eqn:H5;
    [rewrite (bind_lift_ok _ _ _ _ eq_refl)|by rewrite (bind_lift_raise _ _ _ _ eq_refl)].
  apply get_module_attribute_ok_inv in H5 as (name & -> & H5).
  destruct (getitem config PipelineConfigurationKeys.STEPS) as [sc|e] eqn:H6;
    [rewrite (bind_lift_ok _ _ _ _ eq_refl)|by rewrite (bind_lift_raise _ _ _ _ eq_refl)].
  destruct (items sc) as [scs|e] eqn:H7;
    [rewrite (bind_lift_ok _ _ _ _ eq_refl)|by rewrite (bind_lift_raise _ _ _ _ eq_refl)].
  destruct sc; try discriminate. injection H7 as ->.
  intros [= <- <- <- <- <-]; simpl.
  exists config, name, w1, w2. rewrite <- !app_assoc. by simpl.
Qed.

Lemma finish_ok_inv config_path pipeline_name pipeline_class steps s s' :
  finish config_path pipeline_name pipeline_class steps s = (Ok tt, s') ->
  exists p pipeline_instance,
    trace s' = trace s ++
      [Ev (PipelineClass pipeline_class steps) (Returned (VObj p));
       Ev (WithConfig p config_path true) (Returned (VObj pipeline_instance));
       Ev (LoggerDebug "Finished setting up pipeline '%s' from CLI" pipeline_name)
          (Returned VNone);
       Ev (Run pipeline_instance None) (Returned VNone)].
Proof.
  destruct s as [w t]. unfold finish.
  destruct (py_call pipeline_class steps w) as [[p|e] w1] eqn:H1;
    [rewrite (bind_extern_ok _ _ _ _ _ _ _ _ H1)
    |by rewrite (bind_extern_raise _ _ _ _ _ _ _ _ H1)].
  destruct (with_config p config_path true w1) as [[q|e] w2] eqn:H2;
    [rewrite (bind_extern_ok _ _ _ _ _ _ _ _ H2)
    |by rewrite (bind_extern_raise _ _ _ _ _ _ _ _ H2)].
  destruct (logger_debug "Finished setting up pipeline '%s' from CLI"
                         pipeline_name w2) as [[[]|e] w3] eqn:H3;
    [rewrite (bind_extern_ok _ _ _ _ _ _ _ _ H3)
    |by rewrite (bind_extern_raise _ _ _ _ _ _ _ _ H3)].
  destruct (run q None w3) as [r w4] eqn:H4.
  rewrite (extern_eq _ _ _ _ _ _ _ H4). intros [= -> <-]; simpl.
  exists p, q. by rewrite <- !app_assoc.
Qed.



(** An exception in a turn the loop gets to is the exception of the
    command. *)
Lemma run_pipeline_step_raises python_file config_path s module pipeline_name
      pipeline_class pre step_name step_config post s1 steps s2 e s3 :
  setup python_file config_path s
  = (Ok (module, pipeline_name, pipeline_class,
         pre ++ (step_name, step_config) :: post), s1) ->
  build_steps module pre [] s1 = (Ok steps, s2) ->
  build_step module step_config s2 = (Raise e, s3) ->
  run_pipeline python_file config_path s = (Raise e, s3).
Proof.
  intros H1 H2 H3. rewrite run_pipeline_eq. unfold bind at 1. rewrite H1.
  unfold bind at 1. rewrite build_steps_app. unfold bind at 1. rewrite H2.
  simpl. unfold bind at 1. by rewrite H3.
Qed.

Lemma run_pipeline_unknown_pipeline python_file config_path w t module w1
      config w2 w3 name file :
  import_python_file python_file w = (Ok module, w1) ->
  read_yaml config_path w1 = (Ok config, w2) ->
  pipeline_key_check config w2 = (Ok tt, w3) ->
  getitem config PipelineConfigurationKeys.NAME = Ok (YStr name) ->
  attrs module !! name = None ->
  __file__ module = Some file ->
  run_pipeline python_file config_path (State w t)
  = (Raise (unable_to_load file name),
     State w3 (t ++ [Ev (ImportPythonFile python_file) (Returned (VModule module));
                     Ev (ReadYaml config_path) (Returned (VYaml config));
                     Ev (PipelineKeyCheck config) (Returned VNone)])).
Proof.
  intros H1 H2 H3 H4 H5 Hfile. unfold run_pipeline.
  rewrite (bind_extern_ok _ _ _ _ _ _ _ _ H1).
  rewrite (bind_extern_ok _ _ _ _ _ _ _ _ H2).
  rewrite (bind_extern_ok _ _ _ _ _ _ _ _ H3).
  rewrite (bind_lift_ok _ _ _ _ H4).
  rewrite (bind_lift_raise _ _ _ _
             (get_module_attribute_missing _ _ _ H5 Hfile)).
  by rewrite <- !app_assoc.
Qed.

(** Until the loop is over, nothing creates, configures or runs a
    pipeline. *)
Lemma before_finish_no_pipeline_call python_file config_path s :
  (forall r s1, setup python_file config_path s = (r, s1) ->
     exists evs, trace s1 = trace s ++ evs /\
                 Forall (fun e => pipeline_call (ev_call e) = false) evs) /\
  (forall module step_configs steps r s1,
     build_steps module step_configs steps s = (r, s1) ->
     exists evs, trace s1 = trace s ++ evs /\
                 Forall (fun e => pipeline_call (ev_call e) = false) evs).
Proof.
  split.
  - intros r s1 H.
    by eapply (setup_confined (fun _ => tt)
                 (fun c => pipeline_call c = false)) in H as [_ H].
  - intros module step_configs steps r s1 H.
    by eapply (build_steps_confined (fun _ => tt)
                 (fun c => pipeline_call c = false)) in H as [_ H].
Qed.
End RunPipeline.

(** ** The run command *)

Section RunCommand.
Context {W Obj : Type} {C : Collaborators W Obj}.
Implicit Types (module : Module Obj) (w : W) (t : list (event Obj)).

Lemma runs_started_app (evs evs' : list (event Obj)) :
  runs_started (evs ++ evs') = (runs_started evs + runs_started evs')%nat.
Proof. unfold runs_started. by rewrite List.filter_app, length_app. Qed.

Lemma runs_started_none (evs : list (event Obj)) :
  Forall (fun e => pipeline_call (ev_call e) = false) evs -> runs_started evs = 0%nat.
Proof.
  unfold runs_started. induction 1 as [|e evs He _ IH]; [done|]. simpl.
  destruct (ev_call e); try discriminate; exact IH.
Qed.

(** On a module that has a [__file__], [_get_module_attribute] returns the
    module attribute of the given name when there is one, and raises
    PipelineConfigurationError, with the message naming the attribute and
    the module file, when there is none; it never raises AttributeError.
    The lookups of the pipeline class, of a step class and of the
    materializers (single or in a dict) all end in that same exception
    when the name, a string, is missing. *)
Theorem get_module_attribute_spec module (attribute_name : string) file :
  __file__ module = Some file ->
  (forall v, attrs module !! attribute_name = Some v ->
             _get_module_attribute module (YStr attribute_name) = Ok v) /\
  (attrs module !! attribute_name = None ->
   _get_module_attribute module (YStr attribute_name)
   = Raise (PipelineConfigurationError
              ("Unable to load '" +:+ attribute_name +:+ "' from file '"
               +:+ fstr file +:+ "'"))) /\
  (forall any msg, _get_module_attribute module any <> Raise (AttributeError msg)) /\
  (attrs module !! attribute_name = None ->
   (* the pipeline class *)
   (forall python_file config_path w t w1 config w2 w3,
       import_python_file python_file w = (Ok module, w1) ->
       read_yaml config_path w1 = (Ok config, w2) ->
       pipeline_key_check config w2 = (Ok tt, w3) ->
       getitem config PipelineConfigurationKeys.NAME = Ok (YStr attribute_name) ->
       fst (run_pipeline python_file config_path (State w t))
       = Raise (unable_to_load file attribute_name)) /\
   (* a step class *)
   (forall step_config w t w1,
       step_key_check step_config w = (Ok tt, w1) ->
       getitem step_config StepConfigurationKeys.SOURCE_ = Ok (YStr attribute_name) ->
       fst (build_step module step_config (State w t))
       = Raise (unable_to_load file attribute_name)) /\
   (* a single materializer, a materializer in a dict *)
   (forall step_config w t w1 source step_class step_instance w2
           materializers_config,
       step_key_check step_config w = (Ok tt, w1) ->
       getitem step_config StepConfigurationKeys.SOURCE_ = Ok (YStr source) ->
       attrs module !! source = Some step_class ->
       py_call step_class [] w1 = (Ok step_instance, w2) ->
       get_or_none step_config StepConfigurationKeys.MATERIALIZERS_
       = Ok materializers_config ->
       truthy materializers_config = true ->
       (materializers_config = YStr attribute_name \/
        exists pre ms output_name post,
          materializers_config
          = YDict (pre ++ (output_name, YStr attribute_name) :: post) /\
          Forall2 (resolved module) pre ms) ->
       fst (build_step module step_config (State w t))
       = Raise (unable_to_load file attribute_name)) /\
   (* from a turn of the loop to the command *)
   (forall python_file config_path s pipeline_name pipeline_class pre step_name
           step_config post s1 steps s2 e s3,
       setup python_file config_path s
       = (Ok (module, pipeline_name, pipeline_class,
              pre ++ (step_name, step_config) :: post), s1) ->
       build_steps module pre [] s1 = (Ok steps, s2) ->
       build_step module step_config s2 = (Raise e, s3) ->
       fst (run_pipeline python_file config_path s) = Raise e)).
Proof.
  intros Hfile.
  split; [apply get_module_attribute_found|].
  split; [intros Hn; exact (get_module_attribute_missing _ _ _ Hn Hfile)|].
  split; [intros; by eapply get_module_attribute_no_AttributeError|].
  intros Hn. repeat split.
  - intros * H1 H2 H3 H4.
    by rewrite (run_pipeline_unknown_pipeline _ _ _ _ _ _ _ _ _ _ _
                  H1 H2 H3 H4 Hn Hfile).
  - intros * H1 H2.
    by rewrite (build_step_unknown_source _ _ _ _ _ _ _ H1 H2 Hn Hfile).
  - intros * H1 H2 H3 H4 H5 H6 Hm.
    erewrite build_step_unresolved; [reflexivity|eassumption..|].
    destruct Hm as [->|(pre & ms & out & post & -> & Hpre)]; simpl.
    + by rewrite (get_module_attribute_missing _ _ _ Hn Hfile).
    + by rewrite (materializers_dict_missing _ _ _ _ _ _ _ _ Hpre Hn Hfile).
  - intros * H1 H2 H3.
    by rewrite (run_pipeline_step_raises _ _ _ _ _ _ _ _ _ _ _ _ _ _ _ H1 H2 H3).
Qed.

(** C8: on a module that has no [__file__] (a built-in module), the lookup
    of a name the module does not have does not end in
    PipelineConfigurationError: the handler of [_get_module_attribute]
    reads [module.__file__] for its message, and the AttributeError of
    that read is what comes out; looked up as the pipeline name, it is the
    exception of [run_pipeline]. *)
Theorem get_module_attribute_without_file module (attribute_name : string) :
  attrs module !! attribute_name = None ->
  __file__ module = None ->
  _get_module_attribute module (YStr attribute_name)
  = Raise (AttributeError ("module '" +:+ __name__ module
                           +:+ "' has no attribute '__file__'")) /\
  (forall msg, _get_module_attribute module (YStr attribute_name)
               <> Raise (PipelineConfigurationError msg)) /\
  (forall python_file config_path w t w1 config w2 w3,
      import_python_file python_file w = (Ok module, w1) ->
      read_yaml config_path w1 = (Ok config, w2) ->
      pipeline_key_check config w2 = (Ok tt, w3) ->
      getitem config PipelineConfigurationKeys.NAME = Ok (YStr attribute_name) ->
      fst (run_pipeline python_file config_path (State w t))
      = Raise (AttributeError ("module '" +:+ __name__ module
                               +:+ "' has no attribute '__file__'"))).
Proof.
  intros Hn Hfile.
  pose proof (get_module_attribute_no_file _ _ Hn Hfile) as Hraise.
  split; [exact Hraise|]. split; [by rewrite Hraise|].
  intros * H1 H2 H3 H4. unfold run_pipeline.
  rewrite (bind_extern_ok _ _ _ _ _ _ _ _ H1).
  rewrite (bind_extern_ok _ _ _ _ _ _ _ _ H2).
  rewrite (bind_extern_ok _ _ _ _ _ _ _ _ H3).
  rewrite (bind_lift_ok _ _ _ _ H4).
  by rewrite (bind_lift_raise _ _ _ _ Hraise).
Qed.


(** Whenever [run_pipeline] completes without raising, the
    module was imported, the configuration read and its key check passed;
    the configured name names the pipeline class in the module; for each
    entry of the steps mapping, in order, the step key check passed, the
    class named by the entry's source was looked up in the module and
    called without arguments, and the instance (or, with materializers
    configured, what [with_return_materializers] returned for it) was
    stored under the step name; the resulting mapping was passed as
    keyword arguments to the pipeline class, the result configured with
    the same config path and overwrite_step_parameters=True, and [run()]
    called on that, once. *)
Theorem run_pipeline_completed python_file config_path s s' :
  run_pipeline python_file config_path s = (Ok tt, s') ->
  exists module config name pipeline_class step_configs step_events instances
         p pipeline_instance evs,
    getitem config PipelineConfigurationKeys.NAME = Ok (YStr name) /\
    attrs module !! name = Some pipeline_class /\
    getitem config PipelineConfigurationKeys.STEPS = Ok (YDict step_configs) /\
    steps_built module step_configs step_events instances /\
    (NoDup (map fst step_configs) -> store_all instances [] = instances) /\
    trace s' = trace s ++ evs /\
    evs = [Ev (ImportPythonFile python_file) (Returned (VModule module));
           Ev (ReadYaml config_path) (Returned (VYaml config));
           Ev (PipelineKeyCheck config) (Returned VNone)]
          ++ step_events
          ++ [Ev (PipelineClass pipeline_class (store_all instances []))
                 (Returned (VObj p));
              Ev (WithConfig p config_path true)
                 (Returned (VObj pipeline_instance));
              Ev (LoggerDebug "Finished setting up pipeline '%s' from CLI"
                              (YStr name)) (Returned VNone);
              Ev (Run pipeline_instance None) (Returned VNone)] /\
    runs_started evs = 1%nat.
Proof.
  rewrite run_pipeline_eq. unfold bind at 1.
  destruct (setup python_file config_path s)
    as [[[[[m pn] pc] scs]|e] s1] eqn:Hs; [|discriminate].
  unfold bind at 1.
  destruct (build_steps m scs [] s1) as [[steps|e] s2] eqn:Hb; [|discriminate].
  intros Hf.
  destruct (setup_ok_inv _ _ _ _ _ _ _ _ Hs)
    as (config & name & w1 & w2 & _ & _ & _ & Ht1 & -> & Hn & Hc & Hsc).
  destruct (build_steps_ok_inv _ _ _ _ _ _ Hb) as (evs & insts & Ht2 & Hsb & ->).
  destruct (finish_ok_inv _ _ _ _ _ _ Hf) as (p & q & Ht3).
  exists m, config, name, pc, scs, evs, insts, p, q. eexists.
  repeat (split; [done|]).
  split.
  { intros Hnd. apply store_all_nodup. simpl.
    by rewrite (steps_built_keys _ _ _ _ Hsb). }
  split; [|split; [reflexivity|]].
  - rewrite Ht3, Ht2, Ht1. by rewrite <- !app_assoc.
  - rewrite !runs_started_app.
    rewrite (runs_started_none evs) by exact (steps_built_calls _ _ _ _ Hsb).
    reflexivity.
Qed.

Lemma resolved_keys module d ms :
  Forall2 (resolved module) d ms -> map fst ms = map fst d.
Proof.
  induction 1 as [|e m d ms [Hk _] _ IH]; simpl; [done|]. by rewrite Hk, IH.
Qed.

Lemma resolve_materializers_dict module d ms :
  Forall2 (resolved module) d ms -> NoDup (map fst d) ->
  resolve_materializers module (YDict d) = Ok (MDict ms).
Proof.
  intros H Hnd. simpl. rewrite (materializers_dict_resolved _ _ _ _ H).
  rewrite store_all_nodup; [done|]. simpl. by rewrite (resolved_keys _ _ _ H).
Qed.

(** C3: in a turn of the loop that has built the step instance, the
    materializers configuration may be missing or falsy, and the instance
    is then kept as it is.  When it is truthy: a string that names a
    module attribute is looked up and that single materializer passed to
    [with_return_materializers]; a dict whose values name module
    attributes is turned into the dict from each output name to the
    attribute named by its value, and passed likewise; a value of any
    other type makes the turn, and with it [run_pipeline], raise
    PipelineConfigurationError. *)
Theorem materializers_config_cases module step_config w t w1 source step_class
        step_instance w2 materializers_config :
  step_key_check step_config w = (Ok tt, w1) ->
  getitem step_config StepConfigurationKeys.SOURCE_ = Ok (YStr source) ->
  attrs module !! source = Some step_class ->
  py_call step_class [] w1 = (Ok step_instance, w2) ->
  get_or_none step_config StepConfigurationKeys.MATERIALIZERS_
  = Ok materializers_config ->
  let built :=
    t ++ [Ev (StepKeyCheck step_config) (Returned VNone);
          Ev (StepClass step_class) (Returned (VObj step_instance))] in
  let attached ms :=
    exists r w3,
      with_return_materializers step_instance ms w2 = (r, w3) /\
      build_step module step_config (State w t)
      = (r, State w3 (built ++ [Ev (WithReturnMaterializers step_instance ms)
                                   (outcome_of VObj r)])) in
  (truthy materializers_config = false ->
   build_step module step_config (State w t) = (Ok step_instance, State w2 built)) /\
  (truthy materializers_config = true ->
   match materializers_config with
   | YStr name =>
       forall m, attrs module !! name = Some m -> attached (MSingle m)
   | YDict d =>
       forall ms, Forall2 (resolved module) d ms -> NoDup (map fst d) ->
                  attached (MDict ms)
   | _ =>
       build_step module step_config (State w t)
       = (Raise (only_str_and_dict materializers_config), State w2 built) /\
       forall python_file config_path s pipeline_name pipeline_class pre
              step_name post s1 steps,
         setup python_file config_path s
         = (Ok (module, pipeline_name, pipeline_class,
                pre ++ (step_name, step_config) :: post), s1) ->
         build_steps module pre [] s1 = (Ok steps, State w t) ->
         run_pipeline python_file config_path s
         = (Raise (only_str_and_dict materializers_config), State w2 built)
   end).
Proof.
  intros Hk Hs Hc Hi Hm built attached. split.
  - intros Hf. exact (build_step_plain _ _ _ _ _ _ _ _ _ _ Hk Hs Hc Hi Hm Hf).
  - intros Ht.
    assert (Hother :
              resolve_materializers module materializers_config
              = Raise (only_str_and_dict materializers_config) ->
              build_step module step_config (State w t)
              = (Raise (only_str_and_dict materializers_config), State w2 built) /\
              forall python_file config_path s pipeline_name pipeline_class pre
                     step_name post s1 steps,
                setup python_file config_path s
                = (Ok (module, pipeline_name, pipeline_class,
                       pre ++ (step_name, step_config) :: post), s1) ->
                build_steps module pre [] s1 = (Ok steps, State w t) ->
                run_pipeline python_file config_path s
                = (Raise (only_str_and_dict materializers_config), State w2 built)).
    { intros Hr.
      pose proof (build_step_unresolved _ _ _ t _ _ _ _ _ _ _
                    Hk Hs Hc Hi Hm Ht Hr) as Hb.
      split; [exact Hb|]. intros * H1 H2.
      exact (run_pipeline_step_raises _ _ _ _ _ _ _ _ _ _ _ _ _ _ _ H1 H2 Hb). }
    assert (Hattach :
              forall ms, resolve_materializers module materializers_config = Ok ms ->
                         attached ms).
    { intros ms Hr.
      destruct (with_return_materializers step_instance ms w2) as [r w3] eqn:Hw.
      exists r, w3. split; [done|]. unfold built. rewrite <- app_assoc.
      exact (build_step_resolved _ _ _ _ _ _ _ _ _ _ _ _ _
               Hk Hs Hc Hi Hm Ht Hr Hw). }
    destruct materializers_config as [| | |name| |d];
      try (apply Hother; reflexivity).
    + intros m Hmat. apply Hattach. simpl.
      by rewrite (get_module_attribute_found _ _ _ Hmat).
    + intros ms Hms Hnd. apply Hattach. by apply resolve_materializers_dict.
Qed.

(** C9: when the materializers entry of a step configuration is absent,
    None, the empty string or the empty dict, no run of the loop's turn
    on it calls [with_return_materializers]; and once the step class has
    been looked up and called, the turn returns that very instance, which
    the loop stores under the step name. *)
Theorem falsy_materializers_ignored module (d : list (string * yaml)) :
  dict_get d StepConfigurationKeys.MATERIALIZERS_ = None \/
  dict_get d StepConfigurationKeys.MATERIALIZERS_ = Some YNone \/
  dict_get d StepConfigurationKeys.MATERIALIZERS_ = Some (YStr "") \/
  dict_get d StepConfigurationKeys.MATERIALIZERS_ = Some (YDict []) ->
  (forall s r s',
      build_step module (YDict d) s = (r, s') ->
      exists evs, trace s' = trace s ++ evs /\
                  Forall (fun e => is_with_return_materializers (ev_call e) = false)
                         evs) /\
  (forall w t w1 source step_class step_instance w2,
      step_key_check (YDict d) w = (Ok tt, w1) ->
      dict_get d StepConfigurationKeys.SOURCE_ = Some (YStr source) ->
      attrs module !! source = Some step_class ->
      py_call step_class [] w1 = (Ok step_instance, w2) ->
      let built :=
        State w2 (t ++ [Ev (StepKeyCheck (YDict d)) (Returned VNone);
                        Ev (StepClass step_class) (Returned (VObj step_instance))]) in
      build_step module (YDict d) (State w t) = (Ok step_instance, built) /\
      forall step_name rest steps,
        build_steps module ((step_name, YDict d) :: rest) steps (State w t)
        = build_steps module rest (dict_set steps step_name step_instance) built).
Proof.
  intros Hfalsy.
  assert (Hf : truthy (default YNone
                         (dict_get d StepConfigurationKeys.MATERIALIZERS_)) = false).
  { by destruct Hfalsy as [->|[->|[->| ->]]]. }
  split.
  - intros s r s' H.
    assert (Hc : confined (fun _ : W => tt)
                          (fun c => is_with_return_materializers c = false)
                          (build_step module (YDict d)));
      [|exact (proj2 (Hc _ _ _ H))].
    unfold build_step.
    apply confined_bind; [by apply confined_extern|]; intros _.
    apply confined_bind; [apply confined_lift|]; intros src.
    apply confined_bind; [apply confined_lift|]; intros cls.
    apply confined_bind; [by apply confined_extern|]; intros inst.
    apply confined_bind_lift. intros mc [= <-]. rewrite Hf. apply confined_ret.
  - intros * Hk Hs Hc Hi built.
    assert (Hb : build_step module (YDict d) (State w t) = (Ok step_instance, built)).
    { assert (Hs' : getitem (YDict d) StepConfigurationKeys.SOURCE_
                     = Ok (YStr source)) by (simpl; by rewrite Hs).
      exact (build_step_plain _ _ _ _ _ _ _ _ _ _ Hk Hs' Hc Hi eq_refl Hf). }
    split; [exact Hb|]. intros step_name rest steps. simpl. unfold bind.
    by rewrite Hb.
Qed.

Lemma resolves_to_resolve module materializers_config ms :
  resolves_to module materializers_config ms ->
  resolve_materializers module materializers_config = Ok ms.
Proof.
  destruct 1 as [name m Hm|d ms Hms Hnd].
  - simpl. by rewrite (get_module_attribute_found _ _ _ Hm).
  - by apply resolve_materializers_dict.
Qed.

Lemma step_goes_through_build module step_config w t evs step_instance w' :
  step_goes_through module step_config w evs step_instance w' ->
  build_step module step_config (State w t) = (Ok step_instance, State w' (t ++ evs)).
Proof.
  destruct 1 as [w1 src cls inst w2 mc Hk Hs Hc Hi Hm Hf
                |w1 src cls inst w2 mc ms inst' w3 Hk Hs Hc Hi Hm Ht Hr Hw].
  - exact (build_step_plain _ _ _ _ _ _ _ _ _ _ Hk Hs Hc Hi Hm Hf).
  - exact (build_step_resolved _ _ _ _ _ _ _ _ _ _ _ _ _ Hk Hs Hc Hi Hm Ht
             (resolves_to_resolve _ _ _ Hr) Hw).
Qed.

Lemma steps_go_through_build module step_configs w t evs instances w' steps :
  steps_go_through module step_configs w evs instances w' ->
  build_steps module step_configs steps (State w t)
  = (Ok (store_all instances steps), State w' (t ++ evs)).
Proof.
  intros H. revert t steps.
  induction H as [w|k cfg rest w evs inst w1 evs' insts w2 Hstep _ IH];
    intros t steps.
  - simpl. by rewrite app_nil_r.
  - simpl. unfold bind. rewrite (step_goes_through_build _ _ _ t _ _ _ Hstep).
    rewrite IH. by rewrite app_assoc.
Qed.

Lemma steps_go_through_calls module step_configs w evs instances w' :
  steps_go_through module step_configs w evs instances w' ->
  map fst instances = map fst step_configs /\
  Forall (fun e => pipeline_call (ev_call e) = false) evs.
Proof.
  induction 1 as [w|k cfg rest w evs inst w1 evs' insts w2 Hstep _ [IHk IHf]].
  - by split.
  - split; [simpl; by rewrite IHk|]. apply Forall_app. split; [|exact IHf].
    destruct Hstep; by repeat constructor.
Qed.

(** C1 (amended): for every configuration that passes the pipeline key
    check, whose 'name' is a string naming a class of the imported module,
    whose 'steps' is a mapping (no step name twice) and each of whose
    steps goes through (it passes the step key check, its 'source' is a
    string naming a class of the module, that class returns an instance,
    and its materializers are falsy or resolve and are attached), once the
    pipeline class, [with_config] and [logger.debug] have returned,
    [run_pipeline] has built, for each entry of the steps mapping and in
    order, the instance of the class named by the entry's source (or what
    [with_return_materializers] returned for it), has passed the mapping
    from step names to these instances as keyword arguments to the
    pipeline class named by 'name', has configured the result with the
    same config path and overwrite_step_parameters=True, and calls [run()]
    on that exactly once, as its last call; its outcome is that of
    [run()]. *)
Theorem run_pipeline_runs python_file config_path w t module w1 config w2 w3 name
        pipeline_class step_configs step_events instances w4 p w5
        pipeline_instance w6 w7 :
  import_python_file python_file w = (Ok module, w1) ->
  read_yaml config_path w1 = (Ok config, w2) ->
  pipeline_key_check config w2 = (Ok tt, w3) ->
  getitem config PipelineConfigurationKeys.NAME = Ok (YStr name) ->
  attrs module !! name = Some pipeline_class ->
  getitem config PipelineConfigurationKeys.STEPS = Ok (YDict step_configs) ->
  NoDup (map fst step_configs) ->
  steps_go_through module step_configs w3 step_events instances w4 ->
  py_call pipeline_class instances w4 = (Ok p, w5) ->
  with_config p config_path true w5 = (Ok pipeline_instance, w6) ->
  logger_debug "Finished setting up pipeline '%s' from CLI" (YStr name) w6
  = (Ok tt, w7) ->
  map fst instances = map fst step_configs /\
  exists r w8 evs,
    run pipeline_instance None w7 = (r, w8) /\
    run_pipeline python_file config_path (State w t) = (r, State w8 (t ++ evs)) /\
    evs = [Ev (ImportPythonFile python_file) (Returned (VModule module));
           Ev (ReadYaml config_path) (Returned (VYaml config));
           Ev (PipelineKeyCheck config) (Returned VNone)]
          ++ step_events
          ++ [Ev (PipelineClass pipeline_class instances) (Returned (VObj p));
              Ev (WithConfig p config_path true)
                 (Returned (VObj pipeline_instance));
              Ev (LoggerDebug "Finished setting up pipeline '%s' from CLI"
                              (YStr name)) (Returned VNone);
              Ev (Run pipeline_instance None) (outcome_of unit_value r)] /\
    Forall (fun e => pipeline_call (ev_call e) = false) step_events /\
    runs_started evs = 1%nat.
Proof.
  intros H1 H2 H3 H4 H5 H6 Hnd Hsteps H7 H8 H9.
  destruct (steps_go_through_calls _ _ _ _ _ _ Hsteps) as [Hkeys Hcalls].
  split; [exact Hkeys|].
  destruct (run pipeline_instance None w7) as [r w8] eqn:H10.
  exists r, w8. eexists. split; [reflexivity|].
  assert (Hstore : store_all instances [] = instances).
  { apply store_all_nodup. simpl. by rewrite Hkeys. }
  split; [|split; [reflexivity|split; [exact Hcalls|]]].
  - unfold run_pipeline.
    rewrite (bind_extern_ok _ _ _ _ _ _ _ _ H1).
    rewrite (bind_extern_ok _ _ _ _ _ _ _ _ H2).
    rewrite (bind_extern_ok _ _ _ _ _ _ _ _ H3).
    rewrite (bind_lift_ok _ _ _ _ H4).
    rewrite (bind_lift_ok _ _ _ _ (get_module_attribute_found _ _ _ H5)).
    rewrite (bind_lift_ok _ _ _ _ H6).
    rewrite (bind_lift_ok _ _ _ _ (eq_refl : items (YDict step_configs) = Ok _)).
    unfold bind at 1.
    rewrite (steps_go_through_build _ _ _ _ _ _ _ [] Hsteps). rewrite Hstore.
    rewrite (bind_extern_ok _ _ _ _ _ _ _ _ H7).
    rewrite (bind_extern_ok _ _ _ _ _ _ _ _ H8).
    rewrite (bind_extern_ok _ _ _ _ _ _ _ _ H9).
    rewrite (extern_eq _ _ _ _ _ _ _ H10).
    by rewrite <- !app_assoc.
  - rewrite !runs_started_app. rewrite (runs_started_none _ Hcalls). reflexivity.
Qed.
End RunCommand.

(** ** The listing commands *)

Section Listing.
Context {W Obj : Type} {C : Collaborators W Obj}.
Implicit Types (w : W) (t : list (event Obj)).

Lemma bind_try_extern {A B} c (inj : A -> value Obj) f (h : M W Obj A)
      (k : A -> M W Obj B) w t r w' :
  f w = (r, w') ->
  bind (try_except_KeyError (extern c inj f) h) k (State w t)
  = match r with
    | Ok a => k a (State w' (t ++ [Ev c (outcome_of inj r)]))
    | Raise (KeyError _) => bind h k (State w' (t ++ [Ev c (outcome_of inj r)]))
    | Raise e => (Raise e, State w' (t ++ [Ev c (outcome_of inj r)]))
    end.
Proof.
  intros H. unfold bind at 1. unfold try_except_KeyError.
  rewrite (extern_eq _ _ _ _ _ _ _ H). by destruct r as [a|[]].
Qed.

Lemma last_call_prints_or_declares (rows : list row) text w t :
  prints_or_declares rows text w t
    ((if negb (Nat.eqb (length rows) 0)
      then extern (CliPrintTable rows) unit_value (print_table rows)
      else extern (CliDeclare text) unit_value (declare text)) (State w t)).
Proof.
  destruct rows as [|row0 rows]; simpl.
  - destruct (declare text w) as [r w'] eqn:H. exists r, w'.
    by rewrite (extern_eq _ _ _ _ _ _ _ H).
  - destruct (print_table (row0 :: rows) w) as [r w'] eqn:H. exists r, w'.
    by rewrite (extern_eq _ _ _ _ _ _ _ H).
Qed.

Lemma all_run_rows_returned pipelines w t namess w' :
  run_names_in_turn pipelines w namess w' ->
  all_run_rows pipelines (State w t)
  = (Ok (concat (zip_with (fun p names => map (run_row (_name p)) names)
                          pipelines namess)),
     State w' (t ++ zip_with (fun p names =>
                                Ev (GetRunNames p) (Returned (VNames names)))
                             pipelines namess)).
Proof.
  intros H. revert t. induction H as [w|p ps w names w1 namess w2 Hn _ IH]; intros t.
  - simpl. by rewrite app_nil_r.
  - simpl. rewrite (bind_extern_ok _ _ _ _ _ _ _ _ Hn).
    unfold bind at 1. rewrite IH. simpl. by rewrite <- app_assoc.
Qed.

Lemma all_run_rows_confined {R} (obs : W -> R) (P : call Obj -> Prop) pipelines :
  (forall p, P (GetRunNames p)) -> (forall p, keeps obs (get_run_names p)) ->
  confined obs P (all_run_rows pipelines).
Proof.
  intros HP HK. induction pipelines as [|p ps IH]; simpl.
  - apply confined_ret.
  - apply confined_bind; [by apply confined_extern|]; intros names.
    apply confined_bind; [exact IH|]; intros rows. apply confined_ret.
Qed.

Lemma list_pipelines_confined {R} (obs : W -> R) (P : call Obj -> Prop)
      project stack :
  P CliPrintActiveProfile -> P NewRepository ->
  (forall pr text, project = Some pr -> P (GetProject pr) /\ P (CliError text)) ->
  (forall a b, P (GetPipelines a b)) ->
  (forall rows, P (CliPrintTable rows)) -> (forall text, P (CliDeclare text)) ->
  keeps obs print_active_profile -> keeps obs new_repository ->
  (forall pr, keeps obs (get_project pr)) -> (forall text, keeps obs (error text)) ->
  (forall a b, keeps obs (get_pipelines a b)) ->
  (forall rows, keeps obs (print_table rows)) ->
  (forall text, keeps obs (declare text)) ->
  confined obs P (list_pipelines project stack).
Proof.
  intros P1 P2 P3 P4 P5 P6 K1 K2 K3 K4 K5 K6 K7. unfold list_pipelines.
  apply confined_bind; [by apply confined_extern|]; intros _.
  apply confined_bind; [by apply confined_extern|]; intros _.
  apply confined_bind.
  { destruct project as [pr|]; [|apply confined_ret].
    apply confined_try; apply confined_extern; try done; by eapply P3. }
  intros _.
  apply confined_bind; [by apply confined_extern|]; intros pipelines.
  destruct (negb _); by apply confined_extern.
Qed.

Lemma list_runs_confined {R} (obs : W -> R) (P : call Obj -> Prop)
      pipeline stack :
  P CliPrintActiveProfile -> P NewRepository ->
  (forall a b, P (GetPipeline a b)) -> (forall text, P (CliError text)) ->
  (forall a b, P (GetPipelines a b)) -> (forall p, P (GetRunNames p)) ->
  (forall rows, P (CliPrintTable rows)) -> (forall text, P (CliDeclare text)) ->
  keeps obs print_active_profile -> keeps obs new_repository ->
  (forall a b, keeps obs (get_pipeline a b)) -> (forall text, keeps obs (error text)) ->
  (forall a b, keeps obs (get_pipelines a b)) ->
  (forall p, keeps obs (get_run_names p)) ->
  (forall rows, keeps obs (print_table rows)) ->
  (forall text, keeps obs (declare text)) ->
  confined obs P (list_runs pipeline stack).
Proof.
  intros P1 P2 P3 P4 P5 P6 P7 P8 K1 K2 K3 K4 K5 K6 K7 K8. unfold list_runs.
  apply confined_bind; [by apply confined_extern|]; intros _.
  apply confined_bind; [by apply confined_extern|]; intros _.
  apply confined_bind.
  { destruct pipeline as [name|].
    - apply confined_bind; [by apply confined_extern|]; intros view.
      apply confined_bind.
      { destruct view; [apply confined_ret|by apply confined_extern]. }
      intros _. destruct view; [|apply confined_raise].
      apply confined_bind; [by apply confined_extern|]; intros names.
      apply confined_ret.
    - apply confined_bind; [by apply confined_extern|]; intros pipelines.
      by apply all_run_rows_confined. }
  intros table. destruct (negb _); by apply confined_extern.
Qed.

(** C2: whatever the state, [list_pipelines] and [list_runs] only get hold
    of the repository, call its query operations [get_project],
    [get_pipelines], [get_pipeline] and [get_run_names], and write to the
    console; and every part of the world that those calls leave as it
    was (the repository and its metadata store, for query operations) is
    left as it was by the two commands. *)
Theorem listing_commands_read_only (project pipeline stack : option string) :
  (forall s r s',
      list_pipelines project stack s = (r, s') \/
      list_runs pipeline stack s = (r, s') ->
      exists evs,
        trace s' = trace s ++ evs /\
        Forall (fun e => store_query (ev_call e) || console (ev_call e) = true) evs) /\
  (forall (R : Type) (repository : W -> R),
      keeps repository print_active_profile ->
      keeps repository new_repository ->
      (forall pr, keeps repository (get_project pr)) ->
      (forall stack_name pr, keeps repository (get_pipelines stack_name pr)) ->
      (forall name stack_name, keeps repository (get_pipeline name stack_name)) ->
      (forall p, keeps repository (get_run_names p)) ->
      (forall rows, keeps repository (print_table rows)) ->
      (forall text, keeps repository (declare text)) ->
      (forall text, keeps repository (error text)) ->
      forall s r s',
        list_pipelines project stack s = (r, s') \/
        list_runs pipeline stack s = (r, s') ->
        repository (world s') = repository (world s)).
Proof.
  split.
  - intros s r s' [H|H].
    + refine (proj2 (list_pipelines_confined (fun _ => tt)
                       (fun c => store_query c || console c = true) project stack
                       _ _ _ _ _ _ _ _ _ _ _ _ _ _ _ _ H)); try done.
    + refine (proj2 (list_runs_confined (fun _ => tt)
                       (fun c => store_query c || console c = true) pipeline stack
                       _ _ _ _ _ _ _ _ _ _ _ _ _ _ _ _ _ _ _ H)); try done.
  - intros R repository K1 K2 K3 K4 K5 K6 K7 K8 K9 s r s' [H|H].
    + refine (proj1 (list_pipelines_confined repository (fun _ => True)
                       project stack _ _ _ _ _ _ _ _ _ _ _ _ _ _ _ _ H)); done.
    + refine (proj1 (list_runs_confined repository (fun _ => True)
                       pipeline stack _ _ _ _ _ _ _ _ _ _ _ _ _ _ _ _ _ _ _ H)); done.
Qed.

(** C6: once the repository has returned the list of pipelines,
    [list_pipelines] ends by printing the table that has, for each
    pipeline of the list and in the same order, the row of its id as a
    string and of its name; when the list is empty it ends instead by
    declaring that no pipelines were found, naming the project when one
    was given, and prints no table. *)
Theorem list_pipelines_prints project stack w t w1 w2 w3 pipelines w4 :
  print_active_profile w = (Ok tt, w1) ->
  new_repository w1 = (Ok tt, w2) ->
  match project with
  | Some pr => get_project pr w2 = (Ok tt, w3)
  | None => w3 = w2
  end ->
  get_pipelines stack project w3 = (Ok pipelines, w4) ->
  let table := map (fun p => [("ID", pretty (_id p)); ("NAME", _name p)]) pipelines in
  let queried :=
    t ++ [Ev CliPrintActiveProfile (Returned VNone); Ev NewRepository (Returned VNone)]
      ++ match project with
         | Some pr => [Ev (GetProject pr) (Returned VNone)]
         | None => []
         end
      ++ [Ev (GetPipelines stack project) (Returned (VViews pipelines))] in
  let text :=
    "No pipelines found"
    +:+ match project with
        | Some pr => " for project '" +:+ pr +:+ "'"
        | None => ""
        end
    +:+ "." in
  length table = length pipelines /\
  (forall (i : nat) p,
      pipelines !! i = Some p ->
      table !! i = Some [("ID", pretty (_id p)); ("NAME", _name p)]) /\
  prints_or_declares table text w4 queried
                     (list_pipelines project stack (State w t)).
Proof.
  intros H1 H2 H3 H4 table queried text.
  split; [unfold table; by rewrite length_map|]. split.
  { unfold table. clear. induction pipelines as [|q ps IH]; intros [|i] p; simpl;
      try done.
    - by intros [= ->].
    - apply IH. }
  unfold list_pipelines.
  rewrite (bind_extern_ok _ _ _ _ _ _ _ _ H1).
  rewrite (bind_extern_ok _ _ _ _ _ _ _ _ H2).
  assert (Hlast : forall t',
             prints_or_declares table text w4
               (t' ++ [Ev (GetPipelines stack project) (Returned (VViews pipelines))])
               (bind (extern (GetPipelines stack project) VViews
                             (get_pipelines stack project))
                     (fun pipelines =>
                        let table := map pipeline_row pipelines in
                        if negb (Nat.eqb (length table) 0)
                        then extern (CliPrintTable table) unit_value (print_table table)
                        else extern (CliDeclare text) unit_value (declare text))
                     (State w3 t'))).
  { intros t'. rewrite (bind_extern_ok _ _ _ _ _ _ _ _ H4).
    apply last_call_prints_or_declares. }
  unfold queried. destruct project as [pr|].
  - rewrite (bind_try_extern _ _ _ _ _ _ _ _ _ H3). simpl outcome_of.
    rewrite <- !app_assoc. simpl.
    specialize (Hlast (t ++ [Ev CliPrintActiveProfile (Returned VNone);
                             Ev NewRepository (Returned VNone);
                             Ev (GetProject pr) (Returned VNone)])).
    rewrite <- !app_assoc in Hlast. exact Hlast.
  - subst w3. rewrite bind_ret. rewrite <- !app_assoc. simpl.
    specialize (Hlast (t ++ [Ev CliPrintActiveProfile (Returned VNone);
                             Ev NewRepository (Returned VNone)])).
    rewrite <- !app_assoc in Hlast. exact Hlast.
Qed.

(** C7: without a pipeline argument, once [get_pipelines] has returned the
    pipelines and [get_run_names] the run names of each of them in turn,
    [list_runs] ends by printing the table of the rows (name of the
    pipeline, run name), pipelines in the order returned and, for each,
    its runs in the order returned; with a pipeline argument for which
    [get_pipeline] returns a pipeline, it ends by printing one row
    (argument, run name) per run name of that pipeline; in both cases,
    when there is no row, it ends instead by declaring that no pipeline
    runs were found. *)
Theorem list_runs_prints stack w t w1 w2 :
  print_active_profile w = (Ok tt, w1) ->
  new_repository w1 = (Ok tt, w2) ->
  let started :=
    t ++ [Ev CliPrintActiveProfile (Returned VNone);
          Ev NewRepository (Returned VNone)] in
  (forall pipelines w3 namess w4,
      get_pipelines None None w2 = (Ok pipelines, w3) ->
      run_names_in_turn pipelines w3 namess w4 ->
      prints_or_declares
        (concat (zip_with
                   (fun p names =>
                      map (fun n => [("PIPELINE", _name p); ("RUN", n)]) names)
                   pipelines namess))
        "No pipeline runs found."
        w4
        (started
           ++ Ev (GetPipelines None None) (Returned (VViews pipelines))
           :: zip_with (fun p names => Ev (GetRunNames p) (Returned (VNames names)))
                       pipelines namess)
        (list_runs None stack (State w t))) /\
  (forall pipeline view w3 names w4,
      get_pipeline pipeline stack w2 = (Ok (Some view), w3) ->
      get_run_names view w3 = (Ok names, w4) ->
      prints_or_declares
        (map (fun n => [("PIPELINE", pipeline); ("RUN", n)]) names)
        ("No pipeline runs found" +:+ (" for pipeline '" +:+ pipeline +:+ "'")
         +:+ ".")
        w4
        (started
           ++ [Ev (GetPipeline pipeline stack) (Returned (VView (Some view)));
               Ev (GetRunNames view) (Returned (VNames names))])
        (list_runs (Some pipeline) stack (State w t))).
Proof.
  intros H1 H2 started. split.
  - intros pipelines w3 namess w4 H3 H4. unfold list_runs.
    rewrite (bind_extern_ok _ _ _ _ _ _ _ _ H1).
    rewrite (bind_extern_ok _ _ _ _ _ _ _ _ H2).
    rewrite bind_assoc. rewrite (bind_extern_ok _ _ _ _ _ _ _ _ H3).
    unfold bind at 1. rewrite (all_run_rows_returned _ _ _ _ _ H4).
    unfold started. rewrite <- !app_assoc. simpl.
    apply last_call_prints_or_declares.
  - intros pipeline view w3 names w4 H3 H4. unfold list_runs.
    rewrite (bind_extern_ok _ _ _ _ _ _ _ _ H1).
    rewrite (bind_extern_ok _ _ _ _ _ _ _ _ H2).
    rewrite bind_assoc. rewrite (bind_extern_ok _ _ _ _ _ _ _ _ H3).
    rewrite bind_assoc, bind_ret.
    rewrite bind_assoc. rewrite (bind_extern_ok _ _ _ _ _ _ _ _ H4).
    rewrite bind_ret.
    unfold started. rewrite <- !app_assoc. simpl.
    apply last_call_prints_or_declares.
Qed.

(** C10: with a --project option, the project lookup in the zen store is
    the first call [list_pipelines] makes to the repository; when that
    lookup raises KeyError, the command ends in [cli_utils.error] on the
    text "No such project: '<project>'", whose exception ends the
    command, and [get_pipelines] is not called; without the option, no
    run of the command looks a project up. *)
Theorem list_pipelines_project_lookup stack w t w1 w2 :
  print_active_profile w = (Ok tt, w1) ->
  new_repository w1 = (Ok tt, w2) ->
  let started :=
    t ++ [Ev CliPrintActiveProfile (Returned VNone);
          Ev NewRepository (Returned VNone)] in
  (forall project r s',
      list_pipelines (Some project) stack (State w t) = (r, s') ->
      exists o rest, trace s' = started ++ Ev (GetProject project) o :: rest) /\
  (forall project key w3 e w4,
      get_project project w2 = (Raise (KeyError key), w3) ->
      error ("No such project: '" +:+ project +:+ "'") w3 = (Raise e, w4) ->
      list_pipelines (Some project) stack (State w t)
      = (Raise e,
         State w4 (started
                     ++ [Ev (GetProject project) (Raised (KeyError key));
                         Ev (CliError ("No such project: '" +:+ project +:+ "'"))
                            (Raised e)])) /\
      Forall (fun ev : event Obj => is_get_pipelines (ev_call ev) = false)
             [Ev (GetProject project) (Raised (KeyError key));
              Ev (CliError ("No such project: '" +:+ project +:+ "'")) (Raised e)]) /\
  (forall s r s',
      list_pipelines None stack s = (r, s') ->
      exists evs, trace s' = trace s ++ evs /\
                  Forall (fun ev => is_get_project (ev_call ev) = false) evs).
Proof.
  intros H1 H2 started. split; [|split].
  - intros project r s'. unfold list_pipelines.
    rewrite (bind_extern_ok _ _ _ _ _ _ _ _ H1).
    rewrite (bind_extern_ok _ _ _ _ _ _ _ _ H2).
    destruct (get_project project w2) as [o w3] eqn:H3.
    rewrite (bind_try_extern _ _ _ _ _ _ _ _ _ H3).
    match goal with
    | |- context [bind (cli_error _) ?k _] =>
        assert (Hk : forall a, confined (fun _ : W => tt) (fun _ => True) (k a))
    end.
    { intros _.
      apply confined_bind; [by apply confined_extern|]; intros pipelines.
      simpl. destruct (negb _); by apply confined_extern. }
    assert (Hh : confined (fun _ : W => tt) (fun _ : call Obj => True)
                   (cli_error ("No such project: '" +:+ project +:+ "'")))
      by (by apply confined_extern).
    pose proof (confined_bind (fun _ : W => tt) (fun _ => True) _ _ Hh Hk) as Hhk.
    intros H. exists (outcome_of unit_value o).
    assert (Hex : exists evs,
               trace s' = (t ++ [Ev CliPrintActiveProfile (Returned VNone)]
                             ++ [Ev NewRepository (Returned VNone)])
                            ++ [Ev (GetProject project) (outcome_of unit_value o)]
                            ++ evs).
    { destruct o as [[]|e].
      - destruct (Hk tt _ _ _ H) as (_ & evs & Ht & _). exists evs.
        rewrite Ht. simpl. by rewrite <- !app_assoc.
      - assert (Hcase : (exists k, e = KeyError k) \/
                        (Raise e, State w3 (((t ++ [Ev CliPrintActiveProfile
                                                     (Returned VNone)])
                                               ++ [Ev NewRepository (Returned VNone)])
                                              ++ [Ev (GetProject project)
                                                     (outcome_of unit_value
                                                                 (Raise e))]))
                        = (r, s')).
        { destruct e; eauto. }
        destruct Hcase as [[k ->]|Heq].
        + destruct (Hhk _ _ _ H) as (_ & evs & Ht & _). exists evs.
          rewrite Ht. simpl. by rewrite <- !app_assoc.
        + injection Heq as <- <-. exists []. simpl. by rewrite <- !app_assoc. }
    destruct Hex as (evs & ->). exists evs. unfold started.
    by rewrite <- !app_assoc.
  - intros project key w3 e w4 H3 H4.
    assert (Hrun : list_pipelines (Some project) stack (State w t)
                   = (Raise e,
                      State w4 (started
                                  ++ [Ev (GetProject project) (Raised (KeyError key));
                                      Ev (CliError ("No such project: '" +:+ project
                                                    +:+ "'")) (Raised e)]))).
    { unfold list_pipelines.
      rewrite (bind_extern_ok _ _ _ _ _ _ _ _ H1).
      rewrite (bind_extern_ok _ _ _ _ _ _ _ _ H2).
      rewrite (bind_try_extern _ _ _ _ _ _ _ _ _ H3).
      unfold cli_error. rewrite (bind_extern_raise _ _ _ _ _ _ _ _ H4).
      unfold started. by rewrite <- !app_assoc. }
    split; [exact Hrun|]. by repeat constructor.
  - intros s r s' H.
    refine (proj2 (list_pipelines_confined (fun _ => tt)
                     (fun c => is_get_project c = false) None stack
                     _ _ _ _ _ _ _ _ _ _ _ _ _ _ _ _ H)); done.
Qed.
End Listing.

(** ** The scheduled-run example *)

Section Script.
Context {W Obj : Type} {C : Collaborators W Obj}.

(** C5 (amended): run as a script, the example calls the four step classes
    (importer, normalizer, trainer, evaluator), builds one pipeline
    instance from the four instances they return, reads the clock twice,
    and calls [run()] on the pipeline instance once, with the Schedule
    whose interval_second is 60, whose start_time is the first reading
    and whose end_time is the second reading plus 10 minutes; end_time is
    start_time plus 10 minutes exactly when the two readings are the
    same. *)
Theorem run_schedule_main evaluator importer mnist_pipeline normalizer trainer
        w t i w1 n w2 tr w3 e w4 p w5 now1 w6 now2 w7 :
  py_call importer [] w = (Ok i, w1) ->
  py_call normalizer [] w1 = (Ok n, w2) ->
  py_call trainer [] w2 = (Ok tr, w3) ->
  py_call evaluator [] w3 = (Ok e, w4) ->
  py_call mnist_pipeline
          [("importer", i); ("normalizer", n); ("trainer", tr); ("evaluator", e)] w4
  = (Ok p, w5) ->
  datetime_now w5 = (Ok now1, w6) ->
  datetime_now w6 = (Ok now2, w7) ->
  let schedule :=
    {| start_time := now1;
       end_time := now2 + timedelta_minutes 10;
       interval_second := 60 |} in
  exists r w8 evs,
    run p (Some schedule) w7 = (r, w8) /\
    run_schedule evaluator importer mnist_pipeline normalizer trainer "__main__"
                 (State w t)
    = (r, State w8 (t ++ evs)) /\
    evs = [Ev (StepClass importer) (Returned (VObj i));
           Ev (StepClass normalizer) (Returned (VObj n));
           Ev (StepClass trainer) (Returned (VObj tr));
           Ev (StepClass evaluator) (Returned (VObj e));
           Ev (PipelineClass mnist_pipeline
                             [("importer", i); ("normalizer", n);
                              ("trainer", tr); ("evaluator", e)])
              (Returned (VObj p));
           Ev DatetimeNow (Returned (VTime now1));
           Ev DatetimeNow (Returned (VTime now2));
           Ev (Run p (Some schedule)) (outcome_of unit_value r)] /\
    runs_started evs = 1%nat /\
    timedelta_minutes 10 = 10 * 60 * 1000000 /\
    (end_time schedule = start_time schedule + timedelta_minutes 10 <-> now2 = now1).
Proof.
  intros H1 H2 H3 H4 H5 H6 H7 schedule.
  destruct (run p (Some schedule) w7) as [r w8] eqn:H8.
  exists r, w8. eexists. split; [reflexivity|]. split; [|split; [reflexivity|]].
  - unfold run_schedule. rewrite String.eqb_refl.
    rewrite (bind_extern_ok _ _ _ _ _ _ _ _ H1).
    rewrite (bind_extern_ok _ _ _ _ _ _ _ _ H2).
    rewrite (bind_extern_ok _ _ _ _ _ _ _ _ H3).
    rewrite (bind_extern_ok _ _ _ _ _ _ _ _ H4).
    rewrite (bind_extern_ok _ _ _ _ _ _ _ _ H5).
    rewrite (bind_extern_ok _ _ _ _ _ _ _ _ H6).
    rewrite (bind_extern_ok _ _ _ _ _ _ _ _ H7).
    fold schedule. rewrite (extern_eq _ _ _ _ _ _ _ H8).
    by rewrite <- !app_assoc.
  - split; [reflexivity|]. split; [reflexivity|]. simpl. lia.
Qed.

(** Imported rather than run as a script, the file calls nothing. *)
Lemma run_schedule_imported evaluator importer mnist_pipeline normalizer trainer
      (name : string) (s : state W Obj) :
  name <> "__main__" ->
  run_schedule evaluator importer mnist_pipeline normalizer trainer name s
  = (Ok tt, s).
Proof.
  intros H. unfold run_schedule.
  destruct (String.eqb_spec name "__main__") as [->|_]; [done|reflexivity].
Qed.
End Script.

(** ** The commands on the concrete world *)

Section OnDemo.
Import Demo.

Lemma get_module_attribute_spec_witness :
  _get_module_attribute (the_module "pipeline.py") (YStr "Trainer")
  = Ok (Class "Trainer") /\
  _get_module_attribute (the_module "pipeline.py") (YStr "NoSuchStep")
  = Raise (PipelineConfigurationError
             "Unable to load 'NoSuchStep' from file 'pipeline.py'").
Proof.
  split.
  - apply (proj1 (get_module_attribute_spec (C := collaborators)
                    (the_module "pipeline.py") "Trainer"
                    (YStr "pipeline.py") eq_refl)).
    reflexivity.
  - apply (proj1 (proj2 (get_module_attribute_spec (C := collaborators)
                           (the_module "pipeline.py") "NoSuchStep"
                           (YStr "pipeline.py") eq_refl))).
    reflexivity.
Defined.

Lemma run_pipeline_completed_witness :
  fst (run_pipeline "pipeline.py" "good.yaml" s0) = Ok tt /\
  runs_started (trace (snd (run_pipeline "pipeline.py" "good.yaml" s0))) = 1%nat.
Proof.
  split; [reflexivity|].
  assert (Hrun : run_pipeline "pipeline.py" "good.yaml" s0
                 = (Ok tt, snd (run_pipeline "pipeline.py" "good.yaml" s0)))
    by (vm_compute; reflexivity).
  destruct (run_pipeline_completed (C := collaborators)
              "pipeline.py" "good.yaml" s0 _ Hrun)
    as (m & config & name & pc & scs & sevs & insts & p & q & evs
        & _ & _ & _ & _ & _ & Ht & _ & Hruns).
  rewrite Ht. exact Hruns.
Defined.

(** A configuration that passes the pipeline key check and whose steps
    pass the step key check, on which [run_pipeline] raises and never
    calls [run()]: the source of its second step names no class. *)
Lemma run_pipeline_key_checks_not_enough :
  read_yaml "unknown_step.yaml" w0 = (Ok unknown_step_config, w0) /\
  pipeline_key_check unknown_step_config w0 = (Ok tt, w0) /\
  items (YDict [("importer", step "Importer" []); ("trainer", step "NoSuchStep" [])])
  = Ok [("importer", step "Importer" []); ("trainer", step "NoSuchStep" [])] /\
  step_key_check (step "Importer" []) w0 = (Ok tt, w0) /\
  step_key_check (step "NoSuchStep" []) w0 = (Ok tt, w0) /\
  fst (run_pipeline "pipeline.py" "unknown_step.yaml" s0)
  = Raise (PipelineConfigurationError
             "Unable to load 'NoSuchStep' from file 'pipeline.py'") /\
  runs_started (trace (snd (run_pipeline "pipeline.py" "unknown_step.yaml" s0)))
  = 0%nat.
Proof. repeat split; vm_compute; reflexivity. Qed.


Lemma materializers_config_cases_witness :
  fst (build_step (the_module "pipeline.py")
                  (step "Trainer" [("materializers", YStr "ModelMaterializer")])
                  s0)
  = Ok (Materialized (Instance (Class "Trainer") [] 0)
                     (MSingle (Class "ModelMaterializer"))) /\
  fst (build_step (the_module "pipeline.py")
                  (step "Trainer"
                        [("materializers", YList [YStr "ModelMaterializer"])])
                  s0)
  = Raise (PipelineConfigurationError
             ("Only `str` and `dict` values are allowed for 'materializers' "
              +:+ "attribute of a step configuration. You tried to pass in "
              +:+ "`[...]` (type: `list`).")).
Proof.
  split.
  - assert (Hi : py_call (Class "Trainer") [] w0
                 = (Ok (Instance (Class "Trainer") [] 0),
                    snd (py_call (Class "Trainer") [] w0))) by reflexivity.
    destruct (proj2 (materializers_config_cases (C := collaborators)
                       (the_module "pipeline.py")
                       (step "Trainer" [("materializers", YStr "ModelMaterializer")])
                       w0 [] w0 "Trainer" (Class "Trainer") _ _
                       (YStr "ModelMaterializer")
                       eq_refl eq_refl eq_refl Hi eq_refl)
                    eq_refl (Class "ModelMaterializer") eq_refl)
      as (r & w3 & Hw & Hb).
    injection Hw as <- <-. exact (f_equal fst Hb).
  - assert (Hi : py_call (Class "Trainer") [] w0
                 = (Ok (Instance (Class "Trainer") [] 0),
                    snd (py_call (Class "Trainer") [] w0))) by reflexivity.
    exact (f_equal fst
             (proj1 (proj2 (materializers_config_cases (C := collaborators)
                              (the_module "pipeline.py")
                              (step "Trainer"
                                    [("materializers",
                                      YList [YStr "ModelMaterializer"])])
                              w0 [] w0 "Trainer" (Class "Trainer") _ _
                              (YList [YStr "ModelMaterializer"])
                              eq_refl eq_refl eq_refl Hi eq_refl)
                           eq_refl))).
Defined.

Lemma falsy_materializers_ignored_witness :
  build_step (the_module "pipeline.py")
             (YDict [("source", YStr "Importer"); ("materializers", YStr "")])
             s0
  = (Ok (Instance (Class "Importer") [] 0),
     State (snd (py_call (Class "Importer") [] w0))
           [Ev (StepKeyCheck (YDict [("source", YStr "Importer");
                                     ("materializers", YStr "")]))
               (Returned VNone);
            Ev (StepClass (Class "Importer"))
               (Returned (VObj (Instance (Class "Importer") [] 0)))]).
Proof.
  assert (Hi : py_call (Class "Importer") [] w0
               = (Ok (Instance (Class "Importer") [] 0),
                  snd (py_call (Class "Importer") [] w0))) by reflexivity.
  exact (proj1 (proj2 (falsy_materializers_ignored (C := collaborators)
                         (the_module "pipeline.py")
                         [("source", YStr "Importer"); ("materializers", YStr "")]
                         (or_intror (or_intror (or_introl eq_refl))))
                      w0 [] w0 "Importer" (Class "Importer") _ _
                      eq_refl eq_refl eq_refl Hi)).
Defined.

Lemma listing_commands_read_only_witness :
  repository_of (world (snd (list_pipelines (Some "default") None s0)))
  = repository_of w0 /\
  repository_of (world (snd (list_runs None None s0))) = repository_of w0.
Proof.
  assert (K : forall A (f : env -> result A * env),
             (forall w, snd (f w) = w) -> keeps repository_of f).
  { intros A f Hf w r w' H. pose proof (Hf w) as Hw. rewrite H in Hw.
    simpl in Hw. by subst. }
  split.
  - refine (proj2 (listing_commands_read_only (C := collaborators)
                     (Some "default") None None) _ repository_of
                  _ _ _ _ _ _ _ _ _ s0 _ _ (or_introl (surjective_pairing _)));
      intros; by apply K.
  - refine (proj2 (listing_commands_read_only (C := collaborators)
                     None None None) _ repository_of
                  _ _ _ _ _ _ _ _ _ s0 _ _ (or_intror (surjective_pairing _)));
      intros; by apply K.
Defined.

Lemma list_pipelines_prints_witness :
  list_pipelines (Some "default") None s0
  = (Ok tt,
     State w0 [Ev CliPrintActiveProfile (Returned VNone);
               Ev NewRepository (Returned VNone);
               Ev (GetProject "default") (Returned VNone);
               Ev (GetPipelines None (Some "default"))
                  (Returned (VViews [mnist; iris]));
               Ev (CliPrintTable [[("ID", "1"); ("NAME", "mnist_pipeline")];
                                  [("ID", "2"); ("NAME", "iris_pipeline")]])
                  (Returned VNone)]) /\
  list_pipelines (Some "default") None s_empty
  = (Ok tt,
     State w_empty [Ev CliPrintActiveProfile (Returned VNone);
                    Ev NewRepository (Returned VNone);
                    Ev (GetProject "default") (Returned VNone);
                    Ev (GetPipelines None (Some "default")) (Returned (VViews []));
                    Ev (CliDeclare "No pipelines found for project 'default'.")
                       (Returned VNone)]).
Proof.
  split.
  - destruct (proj2 (proj2 (list_pipelines_prints (C := collaborators)
                              (Some "default") None w0 [] w0 w0 w0 [mnist; iris] w0
                              eq_refl eq_refl eq_refl eq_refl)))
      as (r & w' & Hp & Hrun).
    injection Hp as <- <-. exact Hrun.
  - destruct (proj2 (proj2 (list_pipelines_prints (C := collaborators)
                              (Some "default") None w_empty [] w_empty w_empty
                              w_empty [] w_empty
                              eq_refl eq_refl eq_refl eq_refl)))
      as (r & w' & Hp & Hrun).
    injection Hp as <- <-. exact Hrun.
Defined.

Lemma list_runs_prints_witness :
  list_runs None None s0
  = (Ok tt,
     State w0 [Ev CliPrintActiveProfile (Returned VNone);
               Ev NewRepository (Returned VNone);
               Ev (GetPipelines None None) (Returned (VViews [mnist; iris]));
               Ev (GetRunNames mnist) (Returned (VNames ["run_1"; "run_2"]));
               Ev (GetRunNames iris) (Returned (VNames ["run_a"]));
               Ev (CliPrintTable
                     [[("PIPELINE", "mnist_pipeline"); ("RUN", "run_1")];
                      [("PIPELINE", "mnist_pipeline"); ("RUN", "run_2")];
                      [("PIPELINE", "iris_pipeline"); ("RUN", "run_a")]])
                  (Returned VNone)]) /\
  list_runs (Some "iris_pipeline") None s0
  = (Ok tt,
     State w0 [Ev CliPrintActiveProfile (Returned VNone);
               Ev NewRepository (Returned VNone);
               Ev (GetPipeline "iris_pipeline" None) (Returned (VView (Some iris)));
               Ev (GetRunNames iris) (Returned (VNames ["run_a"]));
               Ev (CliPrintTable [[("PIPELINE", "iris_pipeline"); ("RUN", "run_a")]])
                  (Returned VNone)]).
Proof.
  pose proof (list_runs_prints (C := collaborators) None w0 [] w0 w0
                               eq_refl eq_refl) as [Hall Hone].
  split.
  - assert (Hn : run_names_in_turn (C := collaborators) [mnist; iris] w0
                   [["run_1"; "run_2"]; ["run_a"]] w0).
    { apply (run_names_cons mnist [iris] w0 ["run_1"; "run_2"] w0 [["run_a"]] w0);
        [reflexivity|].
      apply (run_names_cons iris [] w0 ["run_a"] w0 [] w0); [reflexivity|].
      apply run_names_nil. }
    destruct (Hall [mnist; iris] w0 _ w0 eq_refl Hn) as (r & w' & Hp & Hrun).
    injection Hp as <- <-. exact Hrun.
  - destruct (Hone "iris_pipeline" iris w0 ["run_a"] w0 eq_refl eq_refl)
      as (r & w' & Hp & Hrun).
    injection Hp as <- <-. exact Hrun.
Defined.

Lemma list_pipelines_project_lookup_witness :
  list_pipelines (Some "nope") None s0
  = (Raise (OtherError "ClickException" "No such project: 'nope'"),
     State w0 [Ev CliPrintActiveProfile (Returned VNone);
               Ev NewRepository (Returned VNone);
               Ev (GetProject "nope") (Raised (KeyError "nope"));
               Ev (CliError "No such project: 'nope'")
                  (Raised (OtherError "ClickException" "No such project: 'nope'"))]).
Proof.
  exact (proj1 (proj1 (proj2 (list_pipelines_project_lookup (C := collaborators)
                                None w0 [] w0 w0 eq_refl eq_refl))
                      "nope" "nope" w0
                      (OtherError "ClickException" "No such project: 'nope'") w0
                      eq_refl eq_refl)).
Defined.

Lemma run_schedule_main_witness :
  runs_started
    (trace (snd (run_schedule (Class "evaluator") (Class "importer")
                              (Class "mnist_pipeline") (Class "normalizer")
                              (Class "trainer") "__main__" s0)))
  = 1%nat.
Proof.
  destruct (run_schedule_main (C := collaborators)
              (Class "evaluator") (Class "importer") (Class "mnist_pipeline")
              (Class "normalizer") (Class "trainer") w0 []
              _ _ _ _ _ _ _ _ _ _ _ _ _ _
              eq_refl eq_refl eq_refl eq_refl eq_refl eq_refl eq_refl)
    as (r & w8 & evs & _ & Hrun & _ & Hone & _).
  change (State w0 []) with s0 in Hrun. rewrite Hrun. exact Hone.
Defined.

(** On a clock that moves between two readings, the schedule handed to
    [run()] ends later than ten minutes after its start. *)
Lemma run_schedule_window_counterexample :
  exists p schedule,
    last (trace (snd (run_schedule (Class "evaluator") (Class "importer")
                                   (Class "mnist_pipeline") (Class "normalizer")
                                   (Class "trainer") "__main__" s0)))
    = Some (Ev (Run p (Some schedule)) (Returned VNone)) /\
    interval_second schedule = 60 /\
    end_time schedule = start_time schedule + timedelta_minutes 10 + 1 /\
    end_time schedule <> start_time schedule + timedelta_minutes 10.
Proof.
  eexists _, _. split; [vm_compute; reflexivity|].
  split; [reflexivity|]. split; [reflexivity|]. vm_compute. discriminate.
Qed.

Lemma get_module_attribute_without_file_witness :
  _get_module_attribute builtin_module (YStr "NoSuchStep")
  = Raise (AttributeError "module 'sys' has no attribute '__file__'").
Proof.
  exact (proj1 (get_module_attribute_without_file (C := collaborators)
                  builtin_module "NoSuchStep" eq_refl eq_refl)).
Defined.

Lemma run_pipeline_runs_witness :
  fst (run_pipeline "pipeline.py" "good.yaml" s0) = Ok tt /\
  runs_started (trace (snd (run_pipeline "pipeline.py" "good.yaml" s0))) = 1%nat.
Proof.
  assert (Hsteps : exists evs instances w4,
             steps_go_through (C := collaborators) (the_module "pipeline.py")
               [("importer", step "Importer" []);
                ("trainer",
                 step "Trainer" [("materializers", YStr "ModelMaterializer")]);
                ("evaluator",
                 step "Evaluator"
                      [("materializers",
                        YDict [("accuracy", YStr "FloatMaterializer")])])]
               w0 evs instances w4).
  { do 3 eexists.
    eapply go_through_cons.
    { eapply goes_through_plain; reflexivity. }
    eapply go_through_cons.
    { eapply goes_through_materializers; try reflexivity.
      apply resolves_single. reflexivity. }
    eapply go_through_cons; [|apply go_through_nil].
    eapply goes_through_materializers; try reflexivity.
    apply (resolves_dict _ _ [("accuracy", Class "FloatMaterializer")]).
    - constructor; [|constructor]. split; [reflexivity|].
      exists "FloatMaterializer". by split.
    - apply NoDup_singleton. }
  destruct Hsteps as (evs & instances & w4 & Hsteps).
  assert (Hnd : NoDup (map fst [("importer", step "Importer" []);
                                ("trainer",
                                 step "Trainer"
                                      [("materializers", YStr "ModelMaterializer")]);
                                ("evaluator",
                                 step "Evaluator"
                                      [("materializers",
                                        YDict [("accuracy",
                                                YStr "FloatMaterializer")])])])).
  { simpl. repeat (apply NoDup_cons; split;
                   [intros Hin; repeat (apply elem_of_cons in Hin as [Hin|Hin];
                                        [discriminate|]);
                    by apply elem_of_nil in Hin|]).
    apply NoDup_nil_2. }
  destruct (run_pipeline_runs (C := collaborators)
              "pipeline.py" "good.yaml" w0 [] (the_module "pipeline.py") w0
              good_config w0 w0 "MnistPipeline" (Class "MnistPipeline")
              _ _ _ _ _ _ _ _ _
              eq_refl eq_refl eq_refl eq_refl eq_refl eq_refl Hnd Hsteps
              eq_refl eq_refl eq_refl)
    as (_ & r & w8 & evs' & Hr & Hrun & _ & _ & Hone).
  change (State w0 []) with s0 in Hrun. rewrite Hrun. simpl.
  injection Hr as <- _. by split.
Defined.

End OnDemo.

(** * Further properties of the run command *)

Section RunCommandMore.
Context {W Obj : Type} {C : Collaborators W Obj}.
Implicit Types (module : Module Obj) (w : W) (t : list (event Obj)).

Lemma keeps_nothing {A} (f : W -> result A * W) : keeps (fun _ : W => tt) f.
Proof. by intros w r w' _. Qed.

Lemma get_module_attribute_not_a_string module attribute_name :
  (forall name, attribute_name <> YStr name) ->
  exists msg, _get_module_attribute module attribute_name = Raise (TypeError msg).
Proof.
  intros H. unfold _get_module_attribute, getattr.
  destruct attribute_name; eauto. by destruct (H s).
Qed.

(** Every call of any run of [run_pipeline] is one of the calls of
    [run_pipeline_call]: the import of the given file, the read of the given
    config path, key checks, step class calls, [with_return_materializers],
    the pipeline class call, [with_config] on the same config path with
    overwrite_step_parameters=True, [logger.debug], and [run()] without a
    schedule; never a repository query, a console helper or a clock
    reading. *)
Theorem run_pipeline_calls python_file config_path (s : state W Obj) :
  exists evs,
    trace (snd (run_pipeline python_file config_path s)) = trace s ++ evs /\
    Forall (fun e => run_pipeline_call python_file config_path (ev_call e)) evs.
Proof.
  assert (Hc : confined (fun _ : W => tt)
                        (run_pipeline_call python_file config_path)
                        (run_pipeline python_file config_path)).
  { unfold run_pipeline.
    apply confined_bind; [by apply confined_extern|]; intros module.
    apply confined_bind; [by apply confined_extern|]; intros config.
    apply confined_bind; [by apply confined_extern|]; intros _.
    do 4 (apply confined_bind; [apply confined_lift|]; intros ?).
    apply confined_bind.
    { apply build_steps_confined; try done; intros; apply keeps_nothing. }
    intros steps.
    apply confined_bind; [by apply confined_extern|]; intros p.
    apply confined_bind; [by apply confined_extern|]; intros q.
    apply confined_bind; [by apply confined_extern|]; intros _.
    by apply confined_extern. }
  exact (proj2 (Hc s _ _ (surjective_pairing _))).
Qed.

(** The last phase of [run_pipeline], whatever its collaborators do. *)
Lemma finish_inv config_path pipeline_name pipeline_class steps
      (s : state W Obj) r s' :
  finish config_path pipeline_name pipeline_class steps s = (r, s') ->
  exists evs, trace s' = trace s ++ evs /\
    ((Forall (fun e => is_run (ev_call e) = false) evs /\ exists e, r = Raise e) \/
     (exists p pipeline_instance,
         evs = [Ev (PipelineClass pipeline_class steps) (Returned (VObj p));
                Ev (WithConfig p config_path true)
                   (Returned (VObj pipeline_instance));
                Ev (LoggerDebug "Finished setting up pipeline '%s' from CLI"
                                pipeline_name) (Returned VNone);
                Ev (Run pipeline_instance None) (outcome_of unit_value r)])).
Proof.
  destruct s as [w t]. unfold finish.
  destruct (py_call pipeline_class steps w) as [[p|e] w1] eqn:H1.
  2:{ rewrite (bind_extern_raise _ _ _ _ _ _ _ _ H1). intros [= <- <-].
      eexists. split; [reflexivity|]. left. split; [by repeat constructor|eauto]. }
  rewrite (bind_extern_ok _ _ _ _ _ _ _ _ H1).
  destruct (with_config p config_path true w1) as [[q|e] w2] eqn:H2.
  2:{ rewrite (bind_extern_raise _ _ _ _ _ _ _ _ H2). intros [= <- <-]; simpl.
      eexists. rewrite <- !app_assoc. split; [reflexivity|]. left.
      split; [by repeat constructor|eauto]. }
  rewrite (bind_extern_ok _ _ _ _ _ _ _ _ H2).
  destruct (logger_debug "Finished setting up pipeline '%s' from CLI"
                         pipeline_name w2) as [[[]|e] w3] eqn:H3.
  2:{ rewrite (bind_extern_raise _ _ _ _ _ _ _ _ H3). intros [= <- <-]; simpl.
      eexists. rewrite <- !app_assoc. split; [reflexivity|]. left.
      split; [by repeat constructor|eauto]. }
  rewrite (bind_extern_ok _ _ _ _ _ _ _ _ H3).
  destruct (run q None w3) as [r' w4] eqn:H4.
  rewrite (extern_eq _ _ _ _ _ _ _ H4). intros [= <- <-]; simpl.
  eexists. rewrite <- !app_assoc. split; [reflexivity|]. right. by exists p, q.
Qed.

Lemma no_pipeline_call_no_run (evs : list (event Obj)) :
  Forall (fun e => pipeline_call (ev_call e) = false) evs ->
  Forall (fun e => is_run (ev_call e) = false) evs.
Proof.
  intros H. eapply Forall_impl; [exact H|]. intros [c o]; simpl. destruct c; simpl; congruence.
Qed.

(** In any run of [run_pipeline], whatever the collaborators do: either the
    command raises and [run()] was never called, or [run()] was called
    once, as the very last call, on what [with_config] returned for what
    the pipeline class call returned, after [logger.debug]; the outcome of
    the command is then the outcome of that [run()] call, and nothing
    before these four calls created, configured or ran a pipeline. *)
Theorem run_is_last_and_only_once python_file config_path (s : state W Obj) :
  let r := fst (run_pipeline python_file config_path s) in
  let s' := snd (run_pipeline python_file config_path s) in
  exists evs, trace s' = trace s ++ evs /\
    ((runs_started evs = 0%nat /\ exists e, r = Raise e) \/
     (exists pre pipeline_class steps p pipeline_instance fmt arg,
         evs = pre ++ [Ev (PipelineClass pipeline_class steps) (Returned (VObj p));
                       Ev (WithConfig p config_path true)
                          (Returned (VObj pipeline_instance));
                       Ev (LoggerDebug fmt arg) (Returned VNone);
                       Ev (Run pipeline_instance None) (outcome_of unit_value r)] /\
         Forall (fun e => pipeline_call (ev_call e) = false) pre /\
         runs_started evs = 1%nat)).
Proof.
  intros r s'. subst r s'.
  destruct (run_pipeline python_file config_path s) as [r s'] eqn:Hrun. simpl.
  rewrite run_pipeline_eq in Hrun. unfold bind at 1 in Hrun.
  destruct (setup python_file config_path s)
    as [[[[[m pn] pc] scs]|e] s1] eqn:Hs.
  2:{ injection Hrun as <- <-.
      destruct (proj1 (before_finish_no_pipeline_call python_file config_path s)
                      _ _ Hs) as (evs & Ht & Hf).
      exists evs. split; [done|]. left.
      split; [by apply runs_started_none|eauto]. }
  destruct (proj1 (before_finish_no_pipeline_call python_file config_path s)
                  _ _ Hs) as (evs1 & Ht1 & Hf1).
  unfold bind at 1 in Hrun.
  destruct (build_steps m scs [] s1) as [[steps|e] s2] eqn:Hb.
  2:{ injection Hrun as <- <-.
      destruct (proj2 (before_finish_no_pipeline_call python_file config_path s1)
                      _ _ _ _ _ Hb) as (evs2 & Ht2 & Hf2).
      exists (evs1 ++ evs2). rewrite Ht2, Ht1, app_assoc.
      split; [done|]. left. split; [|eauto].
      apply runs_started_none. by apply Forall_app. }
  destruct (proj2 (before_finish_no_pipeline_call python_file config_path s1)
                  _ _ _ _ _ Hb) as (evs2 & Ht2 & Hf2).
  destruct (finish_inv _ _ _ _ _ _ _ Hrun) as (evs3 & Ht3 & Hcase).
  exists ((evs1 ++ evs2) ++ evs3). rewrite Ht3, Ht2, Ht1, !app_assoc.
  split; [done|].
  assert (H12 : Forall (fun e => pipeline_call (ev_call e) = false) (evs1 ++ evs2))
    by (by apply Forall_app).
  destruct Hcase as [[Hno He]|(p & q & ->)].
  - left. split; [|exact He]. rewrite runs_started_app.
    rewrite (runs_started_none _ H12). simpl.
    clear -Hno. unfold runs_started.
    induction Hno as [|e evs He _ IH]; [done|]. simpl. by rewrite He.
  - right. exists (evs1 ++ evs2), pc, steps, p, q. do 2 eexists.
    split; [reflexivity|]. split; [exact H12|].
    rewrite runs_started_app, (runs_started_none _ H12). reflexivity.
Qed.
End RunCommandMore.

(** ** Configurations that are not of the expected shape *)

Section RunCommandEdges.
Context {W Obj : Type} {C : Collaborators W Obj}.
Implicit Types (module : Module Obj) (w : W) (t : list (event Obj)).

(** A configured name that is not a string is not turned into a
    PipelineConfigurationError: [_get_module_attribute] only handles
    AttributeError, so the TypeError of [getattr] comes out as it is; for
    the pipeline name this ends [run_pipeline] right after the pipeline key
    check, for a step source it ends the turn right after the step key
    check, before any class is called. *)
Theorem non_string_name_raises_TypeError module (attribute_name : yaml) :
  (forall name, attribute_name <> YStr name) ->
  (exists msg, _get_module_attribute module attribute_name = Raise (TypeError msg)) /\
  (forall python_file config_path w t w1 config w2 w3,
      import_python_file python_file w = (Ok module, w1) ->
      read_yaml config_path w1 = (Ok config, w2) ->
      pipeline_key_check config w2 = (Ok tt, w3) ->
      getitem config PipelineConfigurationKeys.NAME = Ok attribute_name ->
      exists msg,
        run_pipeline python_file config_path (State w t)
        = (Raise (TypeError msg),
           State w3 (t ++ [Ev (ImportPythonFile python_file)
                              (Returned (VModule module));
                           Ev (ReadYaml config_path) (Returned (VYaml config));
                           Ev (PipelineKeyCheck config) (Returned VNone)]))) /\
  (forall step_config w t w1,
      step_key_check step_config w = (Ok tt, w1) ->
      getitem step_config StepConfigurationKeys.SOURCE_ = Ok attribute_name ->
      exists msg,
        build_step module step_config (State w t)
        = (Raise (TypeError msg),
           State w1 (t ++ [Ev (StepKeyCheck step_config) (Returned VNone)]))).
Proof.
  intros Hns.
  destruct (get_module_attribute_not_a_string module _ Hns) as (msg & Hmsg).
  split; [eauto|]. split.
  - intros * H1 H2 H3 H4. exists msg. unfold run_pipeline.
    rewrite (bind_extern_ok _ _ _ _ _ _ _ _ H1).
    rewrite (bind_extern_ok _ _ _ _ _ _ _ _ H2).
    rewrite (bind_extern_ok _ _ _ _ _ _ _ _ H3).
    rewrite (bind_lift_ok _ _ _ _ H4).
    rewrite (bind_lift_raise _ _ _ _ Hmsg). by rewrite <- !app_assoc.
  - intros * H1 H2. exists msg. unfold build_step.
    rewrite (bind_extern_ok _ _ _ _ _ _ _ _ H1).
    rewrite (bind_lift_ok _ _ _ _ H2).
    by rewrite (bind_lift_raise _ _ _ _ Hmsg).
Qed.

(** A step configuration that passes its key check but has no 'source'
    entry makes its turn raise KeyError('source') right after the key
    check: the source is read by subscript, the materializers by [get].
    No class is called in that turn, and the exception ends [run_pipeline]
    there. *)
Theorem step_without_source_raises_KeyError module (d : list (string * yaml)) w t w1 :
  step_key_check (YDict d) w = (Ok tt, w1) ->
  dict_get d StepConfigurationKeys.SOURCE_ = None ->
  let ended := State w1 (t ++ [Ev (StepKeyCheck (YDict d)) (Returned VNone)]) in
  build_step module (YDict d) (State w t) = (Raise (KeyError "source"), ended) /\
  forall python_file config_path s pipeline_name pipeline_class pre step_name post
         s1 steps,
    setup python_file config_path s
    = (Ok (module, pipeline_name, pipeline_class,
           pre ++ (step_name, YDict d) :: post), s1) ->
    build_steps module pre [] s1 = (Ok steps, State w t) ->
    run_pipeline python_file config_path s = (Raise (KeyError "source"), ended).
Proof.
  intros Hk Hs ended.
  assert (Hb : build_step module (YDict d) (State w t)
               = (Raise (KeyError "source"), ended)).
  { unfold build_step. rewrite (bind_extern_ok _ _ _ _ _ _ _ _ Hk).
    erewrite bind_lift_raise; [reflexivity|]. simpl. by rewrite Hs. }
  split; [exact Hb|]. intros * H1 H2.
  exact (run_pipeline_step_raises _ _ _ _ _ _ _ _ _ _ _ _ _ _ _ H1 H2 Hb).
Qed.

(** When the 'steps' entry of the configuration is not a mapping (a list, a
    string, None, ...), [run_pipeline] raises the AttributeError of
    [.items()] after the pipeline class has been looked up: no step is
    checked or built, and the pipeline class is never called. *)
Theorem steps_not_a_mapping_raises_AttributeError python_file config_path w t
        module w1 config w2 w3 name pipeline_class steps_config :
  import_python_file python_file w = (Ok module, w1) ->
  read_yaml config_path w1 = (Ok config, w2) ->
  pipeline_key_check config w2 = (Ok tt, w3) ->
  getitem config PipelineConfigurationKeys.NAME = Ok (YStr name) ->
  attrs module !! name = Some pipeline_class ->
  getitem config PipelineConfigurationKeys.STEPS = Ok steps_config ->
  (forall d, steps_config <> YDict d) ->
  run_pipeline python_file config_path (State w t)
  = (Raise (AttributeError ("'" +:+ type_name steps_config
                            +:+ "' object has no attribute 'items'")),
     State w3 (t ++ [Ev (ImportPythonFile python_file) (Returned (VModule module));
                     Ev (ReadYaml config_path) (Returned (VYaml config));
                     Ev (PipelineKeyCheck config) (Returned VNone)])).
Proof.
  intros H1 H2 H3 H4 H5 H6 H7. unfold run_pipeline.
  rewrite (bind_extern_ok _ _ _ _ _ _ _ _ H1).
  rewrite (bind_extern_ok _ _ _ _ _ _ _ _ H2).
  rewrite (bind_extern_ok _ _ _ _ _ _ _ _ H3).
  rewrite (bind_lift_ok _ _ _ _ H4).
  rewrite (bind_lift_ok _ _ _ _ (get_module_attribute_found _ _ _ H5)).
  rewrite (bind_lift_ok _ _ _ _ H6).
  erewrite bind_lift_raise; [by rewrite <- !app_assoc|].
  destruct steps_config; try reflexivity. by destruct (H7 d).
Qed.
End RunCommandEdges.

(** * Further properties of the listing commands *)

Section ListingMore.
Context {W Obj : Type} {C : Collaborators W Obj}.
Implicit Types (w : W) (t : list (event Obj)).

Local Abbreviation quiet := (confined (fun _ : W => tt)
                                      (fun c : call Obj => is_output c = false)).

Lemma quiet_extern {A} c (inj : A -> value Obj) f :
  is_output c = false -> quiet (extern c inj f).
Proof. intros H. apply confined_extern; [exact H|by intros w r w' _]. Qed.

Lemma ends_in_output_bind {A} (c : M W Obj A) (k : A -> M W Obj unit) :
  quiet c -> (forall a, ends_in_output (k a)) -> ends_in_output (bind c k).
Proof.
  intros Hc Hk s r s'. unfold bind.
  destruct (c s) as [[a|e] s1] eqn:E; intros H.
  - destruct (Hc _ _ _ E) as (_ & evs1 & Ht1 & Hf1).
    destruct (Hk a _ _ _ H) as (evs2 & Ht2 & Hcase).
    exists (evs1 ++ evs2). rewrite Ht2, Ht1, app_assoc. split; [done|].
    destruct Hcase as [[Hf2 He]|(pre & c0 & -> & Hf2 & Hc0)].
    + left. split; [by apply Forall_app|done].
    + right. exists (evs1 ++ pre), c0. rewrite app_assoc.
      split; [done|]. split; [by apply Forall_app|done].
  - injection H as <- <-. destruct (Hc _ _ _ E) as (_ & evs1 & Ht1 & Hf1).
    exists evs1. split; [done|]. left. eauto.
Qed.

Lemma ends_in_output_raise e : ends_in_output (@raise W Obj unit e).
Proof.
  intros s r s' [= <- <-]. exists []. rewrite app_nil_r. split; [done|].
  left. split; [constructor|eauto].
Qed.

Lemma ends_in_output_last (rows : list row) text :
  @ends_in_output W Obj
    (if negb (Nat.eqb (length rows) 0)
     then extern (CliPrintTable rows) unit_value (print_table rows)
     else extern (CliDeclare text) unit_value (declare text)).
Proof.
  intros [w t] r s'. destruct rows as [|row0 rows]; simpl.
  - destruct (declare text w) as [r1 w1] eqn:H.
    rewrite (extern_eq _ _ _ _ _ _ _ H). intros [= <- <-]; simpl.
    eexists. split; [reflexivity|]. right. exists [], (CliDeclare text).
    split; [done|]. split; [constructor|eauto].
  - destruct (print_table (row0 :: rows) w) as [r1 w1] eqn:H.
    rewrite (extern_eq _ _ _ _ _ _ _ H). intros [= <- <-]; simpl.
    eexists. split; [reflexivity|]. right.
    exists [], (CliPrintTable (row0 :: rows)).
    split; [done|]. split; [constructor|]. left. by eexists.
Qed.

(** Whatever the collaborators do, a run of [list_pipelines] or of
    [list_runs] writes at most one table or declaration, as its very last
    call and with that call's outcome as the command's; it never prints a
    table without rows; and when the command raises before that call it
    has written neither.  In particular a command that returns normally has
    written exactly one of the two. *)
Theorem listing_commands_end_in_output (project pipeline stack : option string) :
  ends_in_output (list_pipelines project stack) /\
  ends_in_output (list_runs pipeline stack).
Proof.
  split.
  - unfold list_pipelines.
    apply ends_in_output_bind; [by apply quiet_extern|]; intros _.
    apply ends_in_output_bind; [by apply quiet_extern|]; intros _.
    apply ends_in_output_bind.
    { destruct project as [pr|]; [|apply confined_ret].
      apply confined_try; by apply quiet_extern. }
    intros _.
    apply ends_in_output_bind; [by apply quiet_extern|]; intros pipelines.
    apply ends_in_output_last.
  - unfold list_runs.
    apply ends_in_output_bind; [by apply quiet_extern|]; intros _.
    apply ends_in_output_bind; [by apply quiet_extern|]; intros _.
    apply ends_in_output_bind; [|intros table; apply ends_in_output_last].
    destruct pipeline as [name|].
    + apply confined_bind; [by apply quiet_extern|]; intros view.
      apply confined_bind.
      { destruct view; [apply confined_ret|by apply quiet_extern]. }
      intros _. destruct view; [|apply confined_raise].
      apply confined_bind; [by apply quiet_extern|]; intros names.
      apply confined_ret.
    + apply confined_bind; [by apply quiet_extern|]; intros pipelines.
      apply all_run_rows_confined; [done|by intros p w r w' _].
Qed.

(** With a pipeline argument for which the repository has no pipeline
    ([get_pipeline] returns None), [list_runs] calls [cli_utils.error] on
    "No pipeline named <pipeline> found." and always raises: the exception
    of [error] when it raises, and otherwise the AttributeError of calling
    [get_run_names] on None.  Either way no run names are asked for and
    nothing is printed or declared. *)
Theorem list_runs_unknown_pipeline pipeline stack w t w1 w2 w3 r w4 :
  print_active_profile w = (Ok tt, w1) ->
  new_repository w1 = (Ok tt, w2) ->
  get_pipeline pipeline stack w2 = (Ok None, w3) ->
  error ("No pipeline named " +:+ pipeline +:+ " found.") w3 = (r, w4) ->
  list_runs (Some pipeline) stack (State w t)
  = (Raise match r with
           | Raise e => e
           | Ok _ => AttributeError
                       "'NoneType' object has no attribute 'get_run_names'"
           end,
     State w4 (t ++ [Ev CliPrintActiveProfile (Returned VNone);
                     Ev NewRepository (Returned VNone);
                     Ev (GetPipeline pipeline stack) (Returned (VView None));
                     Ev (CliError ("No pipeline named " +:+ pipeline +:+ " found."))
                        (outcome_of unit_value r)])).
Proof.
  intros H1 H2 H3 H4. unfold list_runs.
  rewrite (bind_extern_ok _ _ _ _ _ _ _ _ H1).
  rewrite (bind_extern_ok _ _ _ _ _ _ _ _ H2).
  rewrite bind_assoc. rewrite (bind_extern_ok _ _ _ _ _ _ _ _ H3).
  rewrite bind_assoc. unfold cli_error.
  destruct r as [[]|e].
  - rewrite (bind_extern_ok _ _ _ _ _ _ _ _ H4). rewrite <- !app_assoc.
    reflexivity.
  - rewrite (bind_extern_raise _ _ _ _ _ _ _ _ H4). by rewrite <- !app_assoc.
Qed.

(** With a --project option, an exception of the project lookup that is not
    a KeyError is not handled: it ends [list_pipelines] as it is, without a
    call to [cli_utils.error], without the pipelines being queried and
    without anything printed. *)
Theorem list_pipelines_lookup_error_propagates project stack w t w1 w2 e w3 :
  print_active_profile w = (Ok tt, w1) ->
  new_repository w1 = (Ok tt, w2) ->
  get_project project w2 = (Raise e, w3) ->
  (forall key, e <> KeyError key) ->
  list_pipelines (Some project) stack (State w t)
  = (Raise e,
     State w3 (t ++ [Ev CliPrintActiveProfile (Returned VNone);
                     Ev NewRepository (Returned VNone);
                     Ev (GetProject project) (Raised e)])).
Proof.
  intros H1 H2 H3 Hne. unfold list_pipelines.
  rewrite (bind_extern_ok _ _ _ _ _ _ _ _ H1).
  rewrite (bind_extern_ok _ _ _ _ _ _ _ _ H2).
  rewrite (bind_try_extern _ _ _ _ _ _ _ _ _ H3). rewrite <- !app_assoc. simpl.
  destruct e; try reflexivity. by destruct (Hne key).
Qed.

Lemma extern_calls {A} (P : call Obj -> Prop) c (inj : A -> value Obj) f :
  P c -> confined (fun _ : W => tt) P (extern c inj f).
Proof. intros H. apply confined_extern; [exact H|by intros w r w' _]. Qed.

(** Every call of any run of a listing command carries the command's own
    arguments.  [list_pipelines] looks up only the given project, passes
    the given stack and project to [get_pipelines], and its texts are "No
    such project: '<project>'" and "No pipelines found[ for project
    '<project>']."; [list_runs] passes the given pipeline name and stack to
    [get_pipeline], and without a pipeline argument calls [get_pipelines]
    with no argument at all, so that the --stack option then has no effect
    on the command. *)
Theorem listing_call_arguments (project pipeline stack : option string)
        (s : state W Obj) :
  (exists evs,
      trace (snd (list_pipelines project stack s)) = trace s ++ evs /\
      Forall (fun e => list_pipelines_call project stack (ev_call e)) evs) /\
  (exists evs,
      trace (snd (list_runs pipeline stack s)) = trace s ++ evs /\
      Forall (fun e => list_runs_call pipeline stack (ev_call e)) evs) /\
  (forall stack', list_runs None stack s = list_runs None stack' s).
Proof.
  split; [|split; [|reflexivity]].
  - assert (Hc : confined (fun _ : W => tt) (list_pipelines_call project stack)
                          (list_pipelines project stack)).
    { unfold list_pipelines.
      apply confined_bind; [by apply extern_calls|]; intros _.
      apply confined_bind; [by apply extern_calls|]; intros _.
      apply confined_bind.
      { destruct project as [pr|]; [|apply confined_ret].
        apply confined_try; apply extern_calls; simpl; eauto. }
      intros _.
      apply confined_bind; [by apply extern_calls|]; intros pipelines.
      simpl. destruct (negb _); by apply extern_calls. }
    exact (proj2 (Hc s _ _ (surjective_pairing _))).
  - assert (Hc : confined (fun _ : W => tt) (list_runs_call pipeline stack)
                          (list_runs pipeline stack)).
    { unfold list_runs.
      apply confined_bind; [by apply extern_calls|]; intros _.
      apply confined_bind; [by apply extern_calls|]; intros _.
      apply confined_bind.
      { destruct pipeline as [name|].
        - apply confined_bind; [by apply extern_calls|]; intros view.
          apply confined_bind.
          { destruct view; [apply confined_ret|].
            apply extern_calls; simpl; eauto. }
          intros _. destruct view; [|apply confined_raise].
          apply confined_bind; [by apply extern_calls|]; intros names.
          apply confined_ret.
        - apply confined_bind; [by apply extern_calls|]; intros pipelines.
          apply all_run_rows_confined; [done|by intros p w r w' _]. }
      intros table. destruct (negb _); by apply extern_calls. }
    exact (proj2 (Hc s _ _ (surjective_pairing _))).
Qed.
End ListingMore.

(** * Further properties of the scheduled-run example *)

Section ScriptMore.
Context {W Obj : Type} {C : Collaborators W Obj}.

(** Whatever the collaborators do, a run of the example under the name
    "__main__" either raises with [run()] never called, or has made
    exactly these calls, in this order: the importer, normalizer, trainer
    and evaluator classes without arguments, the pipeline class on the four
    instances they returned, two readings of the clock, and [run()] on the
    pipeline instance with the schedule built from the two readings; its
    outcome is then that of [run()].  Under any other module name it calls
    nothing and returns. *)
Theorem run_schedule_calls evaluator importer mnist_pipeline normalizer trainer
        (name : string) (s : state W Obj) :
  let r := fst (run_schedule evaluator importer mnist_pipeline normalizer trainer
                             name s) in
  let s' := snd (run_schedule evaluator importer mnist_pipeline normalizer trainer
                              name s) in
  (name <> "__main__" -> r = Ok tt /\ s' = s) /\
  (name = "__main__" ->
   exists evs, trace s' = trace s ++ evs /\
     ((runs_started evs = 0%nat /\ exists e, r = Raise e) \/
      (exists i n t e p now1 now2,
          evs = [Ev (StepClass importer) (Returned (VObj i));
                 Ev (StepClass normalizer) (Returned (VObj n));
                 Ev (StepClass trainer) (Returned (VObj t));
                 Ev (StepClass evaluator) (Returned (VObj e));
                 Ev (PipelineClass mnist_pipeline
                                   [("importer", i); ("normalizer", n);
                                    ("trainer", t); ("evaluator", e)])
                    (Returned (VObj p));
                 Ev DatetimeNow (Returned (VTime now1));
                 Ev DatetimeNow (Returned (VTime now2));
                 Ev (Run p (Some {| start_time := now1;
                                    end_time := now2 + timedelta_minutes 10;
                                    interval_second := 60 |}))
                    (outcome_of unit_value r)]))).
Proof.
  intros r s'. subst r s'. split.
  - intros Hn. by rewrite run_schedule_imported.
  - intros ->. destruct s as [w t]. unfold run_schedule. rewrite String.eqb_refl.
    destruct (py_call importer [] w) as [[i|e] w1] eqn:H1.
    2:{ rewrite (bind_extern_raise _ _ _ _ _ _ _ _ H1). simpl.
        eexists. split; [reflexivity|]. left. eauto. }
    rewrite (bind_extern_ok _ _ _ _ _ _ _ _ H1).
    destruct (py_call normalizer [] w1) as [[n|e] w2] eqn:H2.
    2:{ rewrite (bind_extern_raise _ _ _ _ _ _ _ _ H2). simpl.
        eexists. rewrite <- !app_assoc. split; [reflexivity|]. left. eauto. }
    rewrite (bind_extern_ok _ _ _ _ _ _ _ _ H2).
    destruct (py_call trainer [] w2) as [[tr|e] w3] eqn:H3.
    2:{ rewrite (bind_extern_raise _ _ _ _ _ _ _ _ H3). simpl.
        eexists. rewrite <- !app_assoc. split; [reflexivity|]. left. eauto. }
    rewrite (bind_extern_ok _ _ _ _ _ _ _ _ H3).
    destruct (py_call evaluator [] w3) as [[ev|e] w4] eqn:H4.
    2:{ rewrite (bind_extern_raise _ _ _ _ _ _ _ _ H4). simpl.
        eexists. rewrite <- !app_assoc. split; [reflexivity|]. left. eauto. }
    rewrite (bind_extern_ok _ _ _ _ _ _ _ _ H4).
    destruct (py_call mnist_pipeline
                      [("importer", i); ("normalizer", n); ("trainer", tr);
                       ("evaluator", ev)] w4) as [[p|e] w5] eqn:H5.
    2:{ rewrite (bind_extern_raise _ _ _ _ _ _ _ _ H5). simpl.
        eexists. rewrite <- !app_assoc. split; [reflexivity|]. left. eauto. }
    rewrite (bind_extern_ok _ _ _ _ _ _ _ _ H5).
    destruct (datetime_now w5) as [[now1|e] w6] eqn:H6.
    2:{ rewrite (bind_extern_raise _ _ _ _ _ _ _ _ H6). simpl.
        eexists. rewrite <- !app_assoc. split; [reflexivity|]. left. eauto. }
    rewrite (bind_extern_ok _ _ _ _ _ _ _ _ H6).
    destruct (datetime_now w6) as [[now2|e] w7] eqn:H7.
    2:{ rewrite (bind_extern_raise _ _ _ _ _ _ _ _ H7). simpl.
        eexists. rewrite <- !app_assoc. split; [reflexivity|]. left. eauto. }
    rewrite (bind_extern_ok _ _ _ _ _ _ _ _ H7).
    match goal with
    | |- context [run p (Some ?sch)] =>
        destruct (run p (Some sch) w7) as [r w8] eqn:H8;
        rewrite (extern_eq _ _ _ _ _ _ _ H8)
    end.
    simpl. eexists. rewrite <- !app_assoc. split; [reflexivity|]. right.
    by exists i, n, tr, ev, p, now1, now2.
Qed.
End ScriptMore.

(** ** The further properties on the concrete world *)

Section OnDemoMore.
Import Demo.

Lemma non_string_name_raises_TypeError_witness :
  exists msg,
    fst (build_step (the_module "pipeline.py") (YDict [("source", YInt 5)]) s0)
    = Raise (TypeError msg).
Proof.
  destruct (proj2 (proj2 (non_string_name_raises_TypeError (C := collaborators)
                            (the_module "pipeline.py") (YInt 5)
                            ltac:(discriminate)))
                  (YDict [("source", YInt 5)]) w0 [] w0 eq_refl eq_refl)
    as (msg & H).
  exists msg. exact (f_equal fst H).
Defined.

Lemma step_without_source_raises_KeyError_witness :
  build_step (the_module "pipeline.py") (YDict [("parameters", YDict [])]) s0
  = (Raise (KeyError "source"),
     State w0 [Ev (StepKeyCheck (YDict [("parameters", YDict [])]))
                  (Returned VNone)]).
Proof.
  exact (proj1 (step_without_source_raises_KeyError (C := collaborators)
                  (the_module "pipeline.py") [("parameters", YDict [])]
                  w0 [] w0 eq_refl eq_refl)).
Defined.

Lemma steps_not_a_mapping_raises_AttributeError_witness :
  fst (run_pipeline "pipeline.py" "steps_list.yaml" (State w_shapes []))
  = Raise (AttributeError "'list' object has no attribute 'items'").
Proof.
  refine (f_equal fst
            (steps_not_a_mapping_raises_AttributeError (C := collaborators)
               "pipeline.py" "steps_list.yaml" w_shapes []
               (the_module "pipeline.py") w_shapes steps_list_config w_shapes
               w_shapes "MnistPipeline" (Class "MnistPipeline")
               (YList [YStr "Importer"; YStr "Trainer"])
               eq_refl eq_refl eq_refl eq_refl eq_refl eq_refl _)).
  discriminate.
Defined.

Lemma listing_commands_end_in_output_witness :
  exists pre rows,
    trace (snd (list_pipelines (Some "default") None s0))
    = pre ++ [Ev (CliPrintTable rows) (Returned VNone)] /\
    rows <> [] /\
    Forall (fun e => is_output (ev_call e) = false) pre.
Proof.
  destruct (proj1 (listing_commands_end_in_output (C := collaborators)
                     (Some "default") None None)
                  s0 _ _ (surjective_pairing _))
    as (evs & Ht & [[_ [e He]]|(pre & c0 & -> & Hpre & Hc0)]).
  { vm_compute in He. discriminate. }
  rewrite Ht. simpl.
  destruct Hc0 as [(rows & -> & Hrows)|(text & ->)].
  - by exists pre, rows.
  - exfalso. vm_compute in Ht.
    apply (f_equal (@rev _)) in Ht. rewrite rev_app_distr in Ht. simpl in Ht.
    discriminate.
Defined.

Lemma list_runs_unknown_pipeline_witness :
  list_runs (Some "nope") None s0
  = (Raise (OtherError "ClickException" "No pipeline named nope found."),
     State w0 [Ev CliPrintActiveProfile (Returned VNone);
               Ev NewRepository (Returned VNone);
               Ev (GetPipeline "nope" None) (Returned (VView None));
               Ev (CliError "No pipeline named nope found.")
                  (Raised (OtherError "ClickException"
                                      "No pipeline named nope found."))]).
Proof.
  exact (list_runs_unknown_pipeline (C := collaborators) "nope" None w0 [] w0 w0 w0
           (Raise (OtherError "ClickException" "No pipeline named nope found."))
           w0 eq_refl eq_refl eq_refl eq_refl).
Defined.

Lemma list_pipelines_lookup_error_propagates_witness :
  list_pipelines (C := unreachable_store) (Some "default") None s0
  = (Raise (OtherError "ConnectionError" "default"),
     State w0 [Ev CliPrintActiveProfile (Returned VNone);
               Ev NewRepository (Returned VNone);
               Ev (GetProject "default")
                  (Raised (OtherError "ConnectionError" "default"))]).
Proof.
  refine (list_pipelines_lookup_error_propagates (C := unreachable_store)
            "default" None w0 [] w0 w0
            (OtherError "ConnectionError" "default") w0
            eq_refl eq_refl eq_refl _).
  discriminate.
Defined.

Lemma run_schedule_calls_witness :
  run_schedule (Class "evaluator") (Class "importer") (Class "mnist_pipeline")
               (Class "normalizer") (Class "trainer") "run_schedule" s0
  = (Ok tt, s0).
Proof.
  destruct (proj1 (run_schedule_calls (C := collaborators)
                     (Class "evaluator") (Class "importer")
                     (Class "mnist_pipeline") (Class "normalizer")
                     (Class "trainer") "run_schedule" s0)
                  ltac:(discriminate)) as [Hr Hs].
  etransitivity; [apply surjective_pairing|]. by f_equal.
Defined.
End OnDemoMore.
